(** * Group01.predictor: validation, forecasting loop and process effects

    A shallow embedding of [Group01.predictor] (src/Functions/group01.py)
    together with the part of [Group01.get_data] that it can trigger.

    The method returns [None]; everything it produces is an effect.  The
    embedding therefore runs in a small state-and-exception monad over a
    [World] that holds the three pieces of process state the method touches:
    the attribute [self.df], the list [warnings.filters] and the pyplot
    figures.

    Two things lie outside the repository and are taken as parameters of
    the model:
    - [ARIMA_fit_forecast], which stands for the statsmodels calls
      [ARIMA(tfp, order=...).fit().forecast(steps=...)]; it may raise, and
      it is assumed to leave [self.df], [warnings.filters] and the pyplot
      figures as it found them;
    - [read_csv], the table [get_data] obtains from disk or network
      ([None] when the download fails and there is no cached file). *)

From Stdlib Require Import QArith.
From stdpp Require Import gmap strings list pretty.

Local Open Scope Z_scope.

(** ** Python values reaching [predictor] *)

(** The argument [countries] is dynamically typed; these are the shapes the
    checks of the method can tell apart. *)
#[warnings="-register-all"]
Inductive PyVal : Type :=
| PyNone
| PyInt (n : Z)
| PyStr (s : string)
| PyTuple (items : list PyVal)
| PyList (items : list PyVal).

(** [hash(v)] fails on a list and on a tuple that contains an unhashable
    value; the result names the offending type. *)
Fixpoint unhashable (v : PyVal) : option string :=
  match v with
  | PyNone | PyInt _ | PyStr _ => None
  | PyList _ => Some "list"
  | PyTuple items =>
      (fix first_unhashable (l : list PyVal) : option string :=
         match l with
         | [] => None
         | x :: r =>
             match unhashable x with
             | Some t => Some t
             | None => first_unhashable r
             end
         end) items
  end.

Inductive PyExc : Type :=
| TypeError (msg : string)
| ValueError (msg : string)
| IndexError (msg : string)
| LibraryError (cls msg : string).

Inductive outcome (A : Type) : Type :=
| Ok (a : A)
| Raise (e : PyExc).
Arguments Ok {A} a.
Arguments Raise {A} e.

(** ** Strings *)

(** [sep.join(l)] *)
Fixpoint join (sep : string) (l : list string) : string :=
  match l with
  | [] => ""
  | [s] => s
  | s :: r => s +:+ sep +:+ join sep r
  end.

Definition is_substring (s msg : string) : Prop :=
  ∃ pre post : string, msg = pre +:+ s +:+ post.

(** ** numpy integers *)

(** The [Year] column is read as int64; arithmetic on it wraps around. *)
Definition wrap64 (z : Z) : Z := (z + 2 ^ 63) `mod` 2 ^ 64 - 2 ^ 63.

(** [np.arange(start, stop)] on int64 scalars: the number of values is the
    difference [stop - start] formed in int64 arithmetic (none when it is
    not positive), and the values are [start, start+1, ...], wrapping
    around like every int64 sum. *)
Definition np_arange (start stop : Z) : list Z :=
  (λ i, wrap64 (start + i)) <$> seqZ 0 (wrap64 (stop - start)).

(** [l.remove(x)] without the exception: drops the first occurrence. *)
Fixpoint list_remove {A} `{EqDecision A} (x : A) (l : list A) : list A :=
  match l with
  | [] => []
  | y :: r => if decide (x = y) then r else y :: list_remove x r
  end.

(** ** warnings.filters *)

(** An entry of [warnings.filters]:
    (action, message regex, category, module regex, lineno). *)
Record WarningFilter := {
  action : string;
  message : option string;
  category : string;
  module_re : option string;
  lineno : Z
}.

Global Instance WarningFilter_eq_dec : EqDecision WarningFilter.
Proof. solve_decision. Defined.

(** The entry that [warnings.filterwarnings(act)] builds from its
    defaults: any message, category [Warning] (the root of all warning
    classes), any module, any line. *)
Definition catch_all (act : string) : WarningFilter :=
  {| action := act; message := None; category := "Warning";
     module_re := None; lineno := 0 |}.

(** The first filter decides; a catch-all entry at the head decides every
    warning. *)
Definition all_warnings_ignored (fs : list WarningFilter) : Prop :=
  head fs = Some (catch_all "ignore").

(** [warnings.filterwarnings(act)] with [append=False]: a duplicate of the
    entry is removed and the entry is inserted at the front. *)
Definition add_filter (item : WarningFilter) (fs : list WarningFilter)
  : list WarningFilter :=
  item :: list_remove item fs.

(** ** Messages and constants of the source *)

Definition msg_not_a_list : string :=
  "No valid type as an argument. Please insert the names of countries as a list into the method.".

Definition msg_no_valid_prefix : string :=
  "No valid countries provided. Available countries are: ".

Definition msg_too_many : string :=
  "Maximum of three countries can be provided.".

Definition aggregated_columns : list string :=
  [ "Caribbean"; "Central Africa"; "Central African Republic";
    "Central America"; "Central Asia"; "Central Europe"; "Czechoslovakia";
    "Developed Asia"; "Developed countries"; "Former Soviet Union";
    "High income"; "Horn of Africa"; "Latin America and the Caribbean";
    "Least developed countries"; "Low income"; "Lower-middle income";
    "North Africa"; "Northeast Asia"; "Northern Europe"; "South Asia";
    "Southeast Asia"; "Southern Africa"; "Southern Europe";
    "Sub-Saharan Africa"; "Upper-middle income"; "West Africa"; "West Asia";
    "Western Europe"; "World"; "Yugoslavia" ].

(** The fixed model order and horizon. *)
Definition ARIMA_order : nat * nat * nat := (20, 2, 2)%nat.
Definition forecast_steps : nat := 31.

(** The default property cycle of matplotlib has ten colours, C0 to C9. *)
Definition cycle_length : nat := 10.

Section Model.

Context {float64 : Type}.

(** ** The dataset *)

(** The columns of [self.df] that [predictor] reads. *)
Record Row := {
  Entity : string;
  Year : Z;
  tfp : float64
}.

Definition DataFrame : Type := list Row.

(** ** pyplot *)

Record Line2D := {
  xdata : list Z;
  ydata : list float64;
  label : string;
  linestyle : string;
  color : nat
}.

(** A figure with its single axes. *)
Record Figure := {
  lines : list Line2D;
  prop_cycle : nat;
  title : option string;
  xlabel : option string;
  ylabel : option string;
  legend_drawn : bool;
  suptitle : option string
}.

Definition new_figure : Figure :=
  {| lines := []; prop_cycle := 0; title := None; xlabel := None;
     ylabel := None; legend_drawn := false; suptitle := None |}.

(** ** Process state *)

Record World := {
  df : option DataFrame;
  filters : list WarningFilter;
  figures : list Figure;
  displayed : list Figure
}.

Definition set_df (d : option DataFrame) (w : World) : World :=
  {| df := d; filters := filters w; figures := figures w;
     displayed := displayed w |}.

Definition set_filters (fs : list WarningFilter) (w : World) : World :=
  {| df := df w; filters := fs; figures := figures w;
     displayed := displayed w |}.

Definition set_figures (fg : list Figure) (w : World) : World :=
  {| df := df w; filters := filters w; figures := fg;
     displayed := displayed w |}.

Definition set_displayed (ds : list Figure) (w : World) : World :=
  {| df := df w; filters := filters w; figures := figures w;
     displayed := ds |}.

(** ** The monad: state plus exceptions *)

Definition M (A : Type) : Type := World → outcome A * World.

Definition ret {A} (a : A) : M A := λ w, (Ok a, w).

Definition bind {A B} (m : M A) (k : A → M B) : M B :=
  λ w, match m w with
       | (Ok a, w') => k a w'
       | (Raise e, w') => (Raise e, w')
       end.

Definition raise {A} (e : PyExc) : M A := λ w, (Raise e, w).

Definition lift {A} (o : outcome A) : M A := λ w, (o, w).

Definition gets {A} (f : World → A) : M A := λ w, (Ok (f w), w).

Definition modify (f : World → World) : M unit := λ w, (Ok tt, f w).

Notation "x <- m ;; k" := (bind m (λ x, k))
  (at level 100, m at next level, right associativity,
   format "'[v' x  <-  m  ;;  '/' k ']'").
Notation "m >> k" := (bind m (λ _, k))
  (at level 100, right associativity, format "'[v' m  >>  '/' k ']'").

(** [for x in l: body x] *)
Fixpoint for_each {A} (l : list A) (body : A → M unit) : M unit :=
  match l with
  | [] => ret tt
  | x :: r => body x >> for_each r body
  end.

(** ** Effects used by the method *)

Definition warnings_filterwarnings (act : string) : M unit :=
  modify (λ w, set_filters (add_filter (catch_all act) (filters w)) w).

(** [plt.subplots()]: a new figure, which becomes the current one; the
    result is the handle of its axes. *)
Definition plt_subplots : M nat :=
  λ w, (Ok (length (figures w)), set_figures (figures w ++ [new_figure]) w).

(** [plt.gcf()]: the most recently created figure. *)
Definition plt_gcf : M nat := gets (λ w, pred (length (figures w))).

Definition update_figure (h : nat) (f : Figure → Figure) : M unit :=
  modify (λ w, set_figures (alter f h (figures w)) w).

Definition shape_mismatch (n m : nat) : string :=
  "x and y must have same first dimension, but have shapes ("
    +:+ pretty n +:+ ",) and (" +:+ pretty m +:+ ",)".

Definition add_line (x : list Z) (y : list float64) (lbl ls : string)
    (col : option nat) (f : Figure) : Figure :=
  {| lines := lines f ++
       [ {| xdata := x; ydata := y; label := lbl; linestyle := ls;
            color := match col with
                     | Some c => c
                     | None => (prop_cycle f `mod` cycle_length)%nat
                     end |} ];
     prop_cycle := match col with
                   | Some _ => prop_cycle f
                   | None => S (prop_cycle f)
                   end;
     title := title f; xlabel := xlabel f; ylabel := ylabel f;
     legend_drawn := legend_drawn f; suptitle := suptitle f |}.

(** [ax.plot(x, y, linestyle=ls, color=col, label=lbl)]: the two arrays
    must have the same length; without an explicit colour the line takes
    the next colour of the cycle. *)
Definition ax_plot (ax : nat) (x : list Z) (y : list float64)
    (lbl ls : string) (col : option nat) : M unit :=
  if decide (length x = length y)
  then update_figure ax (add_line x y lbl ls col)
  else raise (ValueError (shape_mismatch (length x) (length y))).

(** [ax.get_lines()[-1].get_color()] *)
Definition last_line_color (ax : nat) : M nat :=
  λ w, match (figures w !! ax) ≫= (λ f, last (lines f)) with
       | Some l => (Ok (color l), w)
       | None => (Raise (IndexError "list index out of range"), w)
       end.

Definition set_title (s : string) (f : Figure) : Figure :=
  {| lines := lines f; prop_cycle := prop_cycle f; title := Some s;
     xlabel := xlabel f; ylabel := ylabel f;
     legend_drawn := legend_drawn f; suptitle := suptitle f |}.

Definition set_xlabel (s : string) (f : Figure) : Figure :=
  {| lines := lines f; prop_cycle := prop_cycle f; title := title f;
     xlabel := Some s; ylabel := ylabel f;
     legend_drawn := legend_drawn f; suptitle := suptitle f |}.

Definition set_ylabel (s : string) (f : Figure) : Figure :=
  {| lines := lines f; prop_cycle := prop_cycle f; title := title f;
     xlabel := xlabel f; ylabel := Some s;
     legend_drawn := legend_drawn f; suptitle := suptitle f |}.

Definition set_legend (f : Figure) : Figure :=
  {| lines := lines f; prop_cycle := prop_cycle f; title := title f;
     xlabel := xlabel f; ylabel := ylabel f;
     legend_drawn := true; suptitle := suptitle f |}.

Definition set_suptitle (s : string) (f : Figure) : Figure :=
  {| lines := lines f; prop_cycle := prop_cycle f; title := title f;
     xlabel := xlabel f; ylabel := ylabel f;
     legend_drawn := legend_drawn f; suptitle := Some s |}.

(** [plt.show()]: the open figures are displayed and closed. *)
Definition plt_show : M unit :=
  modify (λ w, set_figures [] (set_displayed (displayed w ++ figures w) w)).

(** ** Parameters from outside the repository *)

Variable ARIMA_fit_forecast :
  list float64 → nat * nat * nat → nat → outcome (list float64).

Variable read_csv : option DataFrame.

(** ** get_data *)

(** The part of [get_data] that concerns [self.df]: an already loaded table
    is kept; otherwise the CSV is read and the aggregated regions are
    dropped.  When the file cannot be obtained the method prints a message
    and returns, leaving [self.df] as [None]. *)
Definition get_data : M unit :=
  λ w, match df w with
       | Some _ => (Ok tt, w)
       | None =>
           match read_csv with
           | None => (Ok tt, w)
           | Some raw =>
               (Ok tt,
                set_df (Some (filter (λ r, Entity r ∉ aggregated_columns) raw)) w)
           end
       end.

(** Subscripting [self.df]; on [None] Python raises [TypeError]. *)
Definition self_df : M DataFrame :=
  λ w, match df w with
       | Some t => (Ok t, w)
       | None => (Raise (TypeError "'NoneType' object is not subscriptable"), w)
       end.

(** ** predictor *)

(** [set(self.df["Entity"].unique())] *)
Definition available_countries (t : DataFrame) : gset string :=
  list_to_set (Entity <$> t).

(** [[country for country in countries if country in available_countries]]:
    the membership test hashes the element first and raises on an
    unhashable one; only a [str] can be equal to a member of the set, so
    the survivors are kept as strings. *)
Fixpoint select_available (avail : gset string) (items : list PyVal)
  : outcome (list string) :=
  match items with
  | [] => Ok []
  | v :: r =>
      match unhashable v with
      | Some ty => Raise (TypeError ("unhashable type: '" +:+ ty +:+ "'"))
      | None =>
          match select_available avail r with
          | Raise e => Raise e
          | Ok rest =>
              match v with
              | PyStr s => if decide (s ∈ avail) then Ok (s :: rest) else Ok rest
              | _ => Ok rest
              end
          end
      end
  end.

(** [years[-1]] *)
Definition last_year (years : list Z) : outcome Z :=
  match last years with
  | Some y => Ok y
  | None => Raise (IndexError "index -1 is out of bounds for axis 0 with size 0")
  end.

(** The body of the loop over [countries_to_use]. *)
Definition forecast_country (ax : nat) (country : string) : M unit :=
  table <- self_df ;;
  let data := filter (λ r, Entity r = country) table in
  let tfp_values := tfp <$> data in
  let years := Year <$> data in
  ax_plot ax years tfp_values country "-" None >>
  predictions <- lift (ARIMA_fit_forecast tfp_values ARIMA_order forecast_steps) ;;
  y <- lift (last_year years) ;;
  let periods := np_arange y (wrap64 (y + 31)) in
  c <- last_line_color ax ;;
  ax_plot ax periods predictions (country +:+ " (forecast)") "--" (Some c).

Definition predictor (countries : PyVal) : M unit :=
  warnings_filterwarnings "ignore" >>
  items <- match countries with
           | PyList items => ret items
           | _ => raise (TypeError msg_not_a_list)
           end ;;
  d <- gets df ;;
  match d with None => get_data | Some _ => ret tt end >>
  table <- self_df ;;
  let available := available_countries table in
  countries_to_use <- lift (select_available available items) ;;
  match countries_to_use with
  | [] =>
      raise (ValueError (msg_no_valid_prefix +:+ join ", " (elements available)))
  | _ :: _ =>
      if decide (3 < length items)%nat
      then raise (ValueError msg_too_many)
      else
        ax <- plt_subplots ;;
        for_each countries_to_use (forecast_country ax) >>
        update_figure ax (set_title "Total Factor Productivity (TFP) by Year") >>
        fig <- plt_gcf ;;
        update_figure fig (set_xlabel "Year") >>
        fig <- plt_gcf ;;
        update_figure fig (set_ylabel "Total Factor Productivity") >>
        update_figure ax set_legend >>
        fig <- plt_gcf ;;
        update_figure fig
          (set_suptitle "Source: Agricultural total factor productivity (USDA), OWID") >>
        plt_show
  end.

(** ** The failures of the method, under the names the design uses *)

Definition InvalidArgument : PyExc := TypeError msg_not_a_list.

Definition TooManyCountries : PyExc := ValueError msg_too_many.

Definition UnknownCountries (t : DataFrame) : PyExc :=
  ValueError
    (msg_no_valid_prefix +:+ join ", " (elements (available_countries t))).

Definition is_list (v : PyVal) : bool :=
  match v with PyList _ => true | _ => false end.

(** ** What a successful run draws *)

(** [self.df[self.df["Entity"] == country]] *)
Definition country_rows (t : DataFrame) (c : string) : DataFrame :=
  filter (λ r, Entity r = c) t.

Definition engine_forecast (t : DataFrame) (c : string)
  : outcome (list float64) :=
  ARIMA_fit_forecast (tfp <$> country_rows t c) ARIMA_order forecast_steps.

(** The engine answers for the series of [c] with [forecast_steps] values. *)
Definition engine_ok (t : DataFrame) (c : string) : Prop :=
  ∃ p, engine_forecast t c = Ok p ∧ length p = forecast_steps.

(** Every year of the table is an int64 to which 31 can be added without
    overflow. *)
Definition int64_years (t : DataFrame) : Prop :=
  Forall (λ r, - 2 ^ 63 ≤ Year r ∧ Year r + 31 < 2 ^ 63) t.

Definition historical_line (t : DataFrame) (c : string) (k : nat) : Line2D :=
  {| xdata := Year <$> country_rows t c;
     ydata := tfp <$> country_rows t c;
     label := c; linestyle := "-";
     color := (k `mod` cycle_length)%nat |}.

(** The x values the second [ax.plot] call of the loop receives when the
    last year of the series is [y]: the 31 years from [y] on, as int64. *)
Definition forecast_periods (y : Z) : list Z :=
  (λ i, wrap64 (y + i)) <$> seqZ 0 31.

Definition forecast_line (t : DataFrame) (c : string) (k : nat) : Line2D :=
  {| xdata := match last (Year <$> country_rows t c) with
              | Some y => forecast_periods y
              | None => []
              end;
     ydata := match engine_forecast t c with Ok p => p | Raise _ => [] end;
     label := c +:+ " (forecast)"; linestyle := "--";
     color := (k `mod` cycle_length)%nat |}.

(** The lines of a run over the countries [cs], the first of which takes
    colour [k] of the cycle. *)
Fixpoint result_lines (t : DataFrame) (k : nat) (cs : list string)
  : list Line2D :=
  match cs with
  | [] => []
  | c :: r => historical_line t c k :: forecast_line t c k :: result_lines t (S k) r
  end.

Definition with_lines (f : Figure) (ls : list Line2D) (n : nat) : Figure :=
  {| lines := lines f ++ ls; prop_cycle := (prop_cycle f + n)%nat;
     title := title f; xlabel := xlabel f; ylabel := ylabel f;
     legend_drawn := legend_drawn f; suptitle := suptitle f |}.

Definition decorated (f : Figure) : Figure :=
  {| lines := lines f; prop_cycle := prop_cycle f;
     title := Some "Total Factor Productivity (TFP) by Year";
     xlabel := Some "Year";
     ylabel := Some "Total Factor Productivity";
     legend_drawn := true;
     suptitle := Some "Source: Agricultural total factor productivity (USDA), OWID" |}.

(** The figure a successful run over [cs] shows. *)
Definition result_figure (t : DataFrame) (cs : list string) : Figure :=
  decorated (with_lines new_figure (result_lines t 0 cs) (length cs)).

(** The state in which a run that passed validation leaves the process. *)
Definition shown (t : DataFrame) (cs : list string) (w : World) : World :=
  {| df := df w;
     filters := add_filter (catch_all "ignore") (filters w);
     figures := [];
     displayed := displayed w ++ figures w ++ [result_figure t cs] |}.

(** The state after a failed validation: only the warning filter changed. *)
Definition silenced (w : World) : World :=
  set_filters (add_filter (catch_all "ignore") (filters w)) w.

(** ** Frame conditions *)

(** [m] relates every start state to its end state by [R], whatever the
    outcome. *)
Definition stable {A} (R : World → World → Prop) (m : M A) : Prop :=
  ∀ w, R w (snd (m w)).

Definition keeps_table (w w' : World) : Prop :=
  ∀ t, df w = Some t → df w' = Some t.

Definition keeps_filters (w w' : World) : Prop :=
  filters w' = filters w.

End Model.

Arguments Row : clear implicits.
Arguments Line2D : clear implicits.
Arguments Figure : clear implicits.
Arguments World : clear implicits.
Arguments DataFrame : clear implicits.
Arguments M : clear implicits.

(** ** A concrete table and a stand-in engine, for evaluating the model *)

Module Demo.

(** A stand-in for the statsmodels fit: it repeats the last observation. *)
Definition naive_forecast (xs : list Q) (order : nat * nat * nat) (steps : nat)
  : outcome (list Q) :=
  match last xs with
  | Some x => Ok (replicate steps x)
  | None => Raise (ValueError "empty series")
  end.

Definition series (c : string) (first n : Z) : DataFrame Q :=
  (λ y, {| Entity := c; Year := y; tfp := 1%Q |}) <$> seqZ first n.

(** Two countries, 59 yearly observations each, 1961 to 2019. *)
Definition table : DataFrame Q :=
  series "France" 1961 59 ++ series "Germany" 1961 59.

Definition world0 : World Q :=
  {| df := Some table; filters := []; figures := []; displayed := [] |}.

Definition run (countries : PyVal) : outcome unit * World Q :=
  predictor naive_forecast None countries world0.

End Demo.


(** * The other methods that read [self.df]

    [get_countries], [plot_country_chart] and the argument checks of
    [gapminder] and [choropleth], over the same process state. *)

(** [Series.unique()]: the distinct values in order of first appearance;
    [seen] holds the values met so far. *)
Fixpoint unique_from {A} `{EqDecision A} (seen l : list A) : list A :=
  match l with
  | [] => []
  | x :: r =>
      if decide (x ∈ seen) then unique_from seen r
      else x :: unique_from (x :: seen) r
  end.

Definition unique {A} `{EqDecision A} (l : list A) : list A :=
  unique_from [] l.

Definition is_str (v : PyVal) : bool :=
  match v with PyStr _ => true | _ => false end.

Definition msg_args_type : string :=
  "args is not a list or a string. Please pass a list or a string.".

Definition msg_country_unknown : string := "Country does not exist".

Definition msg_pass_countries : string :=
  "Please pass a country string or countries list".

Definition chart_title_prefix : string := "Plot of total _output_ values of ".

Definition source_note : string :=
  "Source: Agricultural total factor productivity (USDA), OWID".

Definition msg_year_type : string := "Please pass a positive integer for year".

Definition msg_year_not_int : string := "Year must be an integer".

Definition msg_year_missing : string := "Year is not in the dataset".

Section OtherMethods.

Context {float64 : Type}.

Variable read_csv : option (DataFrame float64).

(** The sum pandas forms over the "_output_" columns and [Year] of one row
    ([sum(axis=1)] over [df_subset]).  The output columns are not part of
    [Row], so the sum is a parameter, as is the NaN that pandas puts where
    an assignment has no value for a row. *)
Variable row_sum : Row float64 → float64.
Variable NaN : float64.

Notation "x <- m ;; k" := (bind m (λ x, k))
  (at level 100, m at next level, right associativity,
   format "'[v' x  <-  m  ;;  '/' k ']'").
Notation "m >> k" := (bind m (λ _, k))
  (at level 100, right associativity, format "'[v' m  >>  '/' k ']'").

(** [self.df[...]] at the element type of this section. *)
Local Abbreviation self_table := (self_df (float64:=float64)).

(** ** get_countries *)

Definition get_countries : M float64 (list string) :=
  d <- gets df ;;
  match d with None => get_data read_csv | Some _ => ret tt end >>
  table <- self_table ;;
  ret (unique (Entity <$> table)).

(** ** pyplot calls that act on the current figure *)

(** [plt.gca()] and [plt.gcf()] create a figure when none is open. *)
Definition on_current (g : Figure float64 → Figure float64)
    (figs : list (Figure float64)) : list (Figure float64) :=
  match figs with
  | [] => [g new_figure]
  | _ :: _ => alter g (Nat.pred (length figs)) figs
  end.

Definition plt_on_current (g : Figure float64 → Figure float64)
  : M float64 unit :=
  modify (λ w, set_figures (on_current g (figures w)) w).

(** [plt.plot(x, y, label=lbl)] *)
Definition plt_plot (x : list Z) (y : list float64) (lbl : string)
  : M float64 unit :=
  if decide (length x = length y)
  then plt_on_current (add_line x y lbl "-" None)
  else raise (ValueError (shape_mismatch (length x) (length y))).

(** ** plot_country_chart *)

(** [df_temp["Total"] = (df_temp[:-1]).sum(axis=1)]: the slice [[:-1]]
    drops the last row; the assignment aligns on the index, so the rows
    without a sum receive NaN. *)
Definition Total_column (df_temp : DataFrame float64) : list float64 :=
  let sums := row_sum <$> take (length df_temp - 1) df_temp in
  sums ++ replicate (length df_temp - length sums) NaN.

(** The inner function [country_plot] of [plot_country_chart]. *)
Definition country_plot (country : string) : M float64 unit :=
  table <- self_table ;;
  let df_temp := filter (λ r, Entity r = country) table in
  plt_plot (Year <$> df_temp) (Total_column df_temp) country >>
  plt_on_current set_legend.

(** [self.df.columns]; on [None] Python raises [AttributeError]. *)
Definition self_df_columns : M float64 unit :=
  λ w, match df w with
       | Some _ => (Ok tt, w)
       | None =>
           (Raise (LibraryError "AttributeError"
                     "'NoneType' object has no attribute 'columns'"), w)
       end.

(** The loop [for each in args] with its running [title]. *)
Fixpoint plot_each (items : list PyVal) (title : string)
  : M float64 string :=
  match items with
  | [] => ret title
  | each :: r =>
      known <- get_countries ;;
      match each with
      | PyStr s =>
          if decide (s ∈ known)
          then country_plot s >> plot_each r (title +:+ s +:+ ", ")
          else raise (TypeError msg_country_unknown)
      | _ => raise (TypeError msg_country_unknown)
      end
  end.

Definition plot_country_chart (args : PyVal) : M float64 unit :=
  let title := chart_title_prefix in
  match args with
  | PyList _ | PyStr _ => ret tt
  | _ => raise (TypeError msg_args_type)
  end >>
  d <- gets df ;;
  match d with None => get_data read_csv | Some _ => ret tt end >>
  self_df_columns >>
  title <- match args with
           | PyStr s =>
               known <- get_countries ;;
               if decide (s ∈ known)
               then country_plot s >> ret (title +:+ s)
               else raise (ValueError msg_country_unknown)
           | PyList items | PyTuple items =>
               if forallb is_str items
               then plot_each items title
               else raise (TypeError msg_pass_countries)
           | PyNone => raise (TypeError "'NoneType' object is not iterable")
           | PyInt _ => raise (TypeError "'int' object is not iterable")
           end ;;
  plt_on_current (set_title title) >>
  plt_on_current (set_suptitle source_note) >>
  plt_on_current (set_xlabel "Year") >>
  plt_on_current (set_ylabel "Total _output") >>
  plt_show.

(** ** The argument checks of gapminder and choropleth *)

(** [gapminder] up to its first plotting call: the type and sign check,
    the lazy load and the membership test of the year. *)
Definition gapminder_checks (year : PyVal) : M float64 Z :=
  n <- match year with
       | PyInt n =>
           if decide (n < 0) then raise (TypeError msg_year_type) else ret n
       | _ => raise (TypeError msg_year_type)
       end ;;
  d <- gets df ;;
  match d with None => get_data read_csv | Some _ => ret tt end >>
  table <- self_table ;;
  if decide (n ∈ unique (Year <$> table))
  then ret n
  else raise (ValueError (pretty n +:+ " is not present in the dataset")).

(** [choropleth] up to the renaming of the entities; [geo_is_none] tells
    whether [self.df_geographical] is [None].  When it is, the method
    calls [get_data], which also assigns [self.df_geographical] and may
    write files: [World] has no place for either, so of the state after
    such a call only [self.df], the warning filters and the figures are
    described. *)
Definition choropleth_checks (geo_is_none : bool) (year : PyVal)
  : M float64 Z :=
  n <- match year with
       | PyInt n => ret n
       | _ => raise (TypeError msg_year_not_int)
       end ;;
  d <- gets df ;;
  match d, geo_is_none with
  | Some _, false => ret tt
  | _, _ => get_data read_csv
  end >>
  table <- self_table ;;
  if decide (n ∈ Year <$> table)
  then ret n
  else raise (ValueError msg_year_missing).

(** ** What [get_data] stores *)

(** [self.df[~self.df["Entity"].isin(aggregated_columns)]] *)
Definition loaded_table (raw : DataFrame float64) : DataFrame float64 :=
  filter (λ r, Entity r ∉ aggregated_columns) raw.

(** ** What [plot_country_chart] draws *)

Definition chart_line (t : DataFrame float64) (c : string) (k : nat)
  : Line2D float64 :=
  {| xdata := Year <$> filter (λ r, Entity r = c) t;
     ydata := Total_column (filter (λ r, Entity r = c) t);
     label := c; linestyle := "-";
     color := (k `mod` cycle_length)%nat |}.

(** One call of [country_plot] on the current figure. *)
Definition plot_one (t : DataFrame float64) (c : string)
    (f : Figure float64) : Figure float64 :=
  set_legend
    (add_line (Year <$> filter (λ r, Entity r = c) t)
       (Total_column (filter (λ r, Entity r = c) t)) c "-" None f).

(** The open figures after [country_plot] ran for each of [names]. *)
Definition drawn_on (t : DataFrame float64) (figs : list (Figure float64))
    (names : list string) : list (Figure float64) :=
  foldl (λ fg c, on_current (plot_one t c) fg) figs names.

(** The title the loop builds: every name is followed by ", ". *)
Definition list_title (names : list string) : string :=
  foldl (λ title s, title +:+ s +:+ ", ") chart_title_prefix names.

Definition chart_finish (title : string) (f : Figure float64)
  : Figure float64 :=
  set_ylabel "Total _output"
    (set_xlabel "Year" (set_suptitle source_note (set_title title f))).

End OtherMethods.

(** ** Stand-ins for the row sums, for evaluating the model *)

Module DemoCharts.

Definition row_sum (r : Row Q) : Q := (tfp r + inject_Z (Year r))%Q.

(** A rational that no row sum of the table takes, in the place of NaN. *)
Definition NaN : Q := (-1)%Q.

Definition chart (args : PyVal) : outcome unit * World Q :=
  plot_country_chart None row_sum NaN args Demo.world0.

(** A file with rows for the aggregate "World" beside the two countries,
    and an object that has not loaded anything yet. *)
Definition raw_csv : DataFrame Q := Demo.series "World" 1961 59 ++ Demo.table.

Definition fresh : World Q :=
  {| df := None; filters := []; figures := []; displayed := [] |}.

(** A table with a third country, of ten observations, and a stand-in
    engine that raises on a series of exactly ten observations and answers
    on every other one.  It stands for a fit that fails for one country of
    a list; it is no description of what statsmodels does with a short
    series. *)
Definition table_with_short_series : DataFrame Q :=
  Demo.table ++ Demo.series "Monaco" 2010 10.

Definition selective_forecast (xs : list Q) (order : nat * nat * nat)
    (steps : nat) : outcome (list Q) :=
  if decide (length xs = 10%nat)
  then Raise (LibraryError "LinAlgError" "the fit failed")
  else Demo.naive_forecast xs order steps.


Definition world_with_short_series : World Q :=
  {| df := Some table_with_short_series; filters := []; figures := [];
     displayed := [] |}.

End DemoCharts.
(** * Properties *)

Section Properties.

Context {float64 : Type}.
Variable ARIMA_fit_forecast :
  list float64 → nat * nat * nat → nat → outcome (list float64).
Variable read_csv : option (DataFrame float64).

Abbreviation run_predictor := (predictor ARIMA_fit_forecast read_csv).
Abbreviation loop_body := (forecast_country ARIMA_fit_forecast).
Abbreviation engine_forecast := (engine_forecast ARIMA_fit_forecast).
Abbreviation engine_ok := (engine_ok ARIMA_fit_forecast).
Abbreviation forecast_line := (forecast_line ARIMA_fit_forecast).
Abbreviation result_lines := (result_lines ARIMA_fit_forecast).
Abbreviation result_figure := (result_figure ARIMA_fit_forecast).
Abbreviation shown := (shown ARIMA_fit_forecast).
Abbreviation table := (DataFrame float64).
Abbreviation world := (World float64).

Implicit Types (t : table) (w : world) (c : string) (names cs : list string).

(** ** Arithmetic and list facts *)

Lemma wrap64_small z : - 2 ^ 63 ≤ z < 2 ^ 63 → wrap64 z = z.
Proof.
  intros Hz. unfold wrap64.
  rewrite Z.mod_small; lia.
Qed.

Lemma wrap64_difference y k :
  - 2 ^ 63 ≤ k < 2 ^ 63 → wrap64 (wrap64 (y + k) - y) = k.
Proof.
  intros Hk. unfold wrap64.
  rewrite (Z.mod_eq (y + k + 2 ^ 63) (2 ^ 64)) by lia.
  replace (y + k + 2 ^ 63 - 2 ^ 64 * ((y + k + 2 ^ 63) `div` 2 ^ 64)
           - 2 ^ 63 - y + 2 ^ 63)
    with (k + 2 ^ 63 + - ((y + k + 2 ^ 63) `div` 2 ^ 64) * 2 ^ 64) by lia.
  rewrite Z_mod_plus_full, Z.mod_small; lia.
Qed.

(** Whatever the last year, the x array has its 31 values, also when
    [y + 31] overflows. *)
Lemma np_arange_forecast y :
  np_arange y (wrap64 (y + 31)) = forecast_periods y.
Proof.
  unfold np_arange, forecast_periods. by rewrite wrap64_difference by lia.
Qed.

Lemma forecast_periods_length y : length (forecast_periods y) = forecast_steps.
Proof. unfold forecast_periods. by rewrite length_fmap, length_seqZ. Qed.

Lemma forecast_periods_in_range y :
  - 2 ^ 63 ≤ y → y + 31 < 2 ^ 63 → forecast_periods y = seqZ y 31.
Proof.
  intros Hlo Hhi. unfold forecast_periods.
  replace (seqZ y 31) with (Z.add y <$> seqZ 0 31)
    by (rewrite fmap_add_seqZ; f_equal; lia).
  apply list_fmap_ext. intros i x Hx.
  apply lookup_seqZ in Hx as [-> Hi]. apply wrap64_small. lia.
Qed.

Lemma alter_last {A} (f : A → A) (l : list A) (x : A) :
  alter f (length l) (l ++ [x]) = l ++ [f x].
Proof.
  replace (length l) with (length l + 0)%nat by lia.
  by rewrite alter_app_r.
Qed.

Lemma lookup_last_app {A} (l : list A) (x : A) :
  (l ++ [x]) !! length l = Some x.
Proof. by rewrite lookup_app_r, Nat.sub_diag by lia. Qed.

Lemma pred_length_snoc {A} (l : list A) (x : A) :
  Nat.pred (length (l ++ [x])) = length l.
Proof. rewrite length_app. cbn. lia. Qed.

(** ** Strings *)

Lemma append_assoc (a b c : string) : (a +:+ b) +:+ c = a +:+ b +:+ c.
Proof.
  induction a as [|x a IH]; [done|].
  change (String x ((a +:+ b) +:+ c) = String x (a +:+ b +:+ c)).
  by rewrite IH.
Qed.

Lemma append_nil_r (a : string) : a +:+ "" = a.
Proof.
  induction a as [|x a IH]; [done|].
  change (String x (a +:+ "") = String x a). by rewrite IH.
Qed.

Lemma is_substring_prefixed (pre s msg : string) :
  is_substring s msg → is_substring s (pre +:+ msg).
Proof.
  intros (a & b & ->). exists (pre +:+ a), b. by rewrite append_assoc.
Qed.

Lemma is_substring_join (sep s : string) (l : list string) :
  s ∈ l → is_substring s (join sep l).
Proof.
  induction l as [|x r IH]; intros Hs; [by apply elem_of_nil in Hs|].
  apply elem_of_cons in Hs as [->|Hs].
  - destruct r as [|y r'].
    + exists "", "". cbn. by rewrite append_nil_r.
    + exists "", (sep +:+ join sep (y :: r')). done.
  - destruct r as [|y r']; [by apply elem_of_nil in Hs|].
    change (join sep (x :: y :: r'))
      with (x +:+ sep +:+ join sep (y :: r')).
    do 2 apply is_substring_prefixed. by apply IH.
Qed.

(** ** The selection of the known names *)



Lemma select_available_strings (avail : gset string) names :
  select_available avail (PyStr <$> names)
  = Ok (filter (λ s, s ∈ avail) names).
Proof.
  induction names as [|s r IH]; [done|].
  cbn [fmap list_fmap select_available unhashable].
  change (list_fmap string PyVal PyStr r) with (PyStr <$> r).
  rewrite IH, filter_cons. by destruct (decide (s ∈ avail)).
Qed.

Lemma filter_known_nil (avail : gset string) names :
  filter (λ s, s ∈ avail) names = [] ↔ (∀ c, c ∈ names → c ∉ avail).
Proof.
  split.
  - intros Hnil c Hc Hin. by eapply (filter_nil_not_elem_of (λ s, s ∈ avail)).
  - intros Hnone. induction names as [|s r IH]; [done|].
    rewrite filter_cons. destruct (decide (s ∈ avail)) as [Hin|_].
    + exfalso. apply (Hnone s); [left|done].
    + apply IH. intros c Hc. apply Hnone. by right.
Qed.

Lemma filter_known_cons (avail : gset string) names c :
  c ∈ names → c ∈ avail →
  ∃ c' cs, filter (λ s, s ∈ avail) names = c' :: cs.
Proof.
  intros Hc Hin.
  destruct (filter (λ s, s ∈ avail) names) as [|c' cs] eqn:E; [|eauto].
  exfalso. by apply (proj1 (filter_known_nil avail names) E c).
Qed.

(** ** The series of a known country *)

Lemma known_country_last_row t c :
  c ∈ available_countries t →
  ∃ r, last (country_rows t c) = Some r ∧ r ∈ t ∧ Entity r = c.
Proof.
  unfold available_countries, country_rows. intros Hc.
  apply elem_of_list_to_set, list_elem_of_fmap in Hc as (r0 & Heq & Hr0).
  assert (Hin : r0 ∈ filter (λ r, Entity r = c) t)
    by (apply list_elem_of_filter; split; [done|done]).
  destruct (last (filter (λ r, Entity r = c) t)) as [r|] eqn:E.
  - exists r. split; [done|].
    apply last_Some_elem_of, list_elem_of_filter in E as [? ?]. done.
  - apply last_None in E. rewrite E in Hin. by apply elem_of_nil in Hin.
Qed.

Lemma known_country_last_year t c :
  c ∈ available_countries t → int64_years t →
  ∃ y, last (Year <$> country_rows t c) = Some y
       ∧ - 2 ^ 63 ≤ y ∧ y + 31 < 2 ^ 63.
Proof.
  intros Hc Hy. destruct (known_country_last_row t c Hc) as (r & Hl & Hr & _).
  exists (Year r). rewrite fmap_last, Hl. split; [done|].
  unfold int64_years in Hy. rewrite Forall_forall in Hy. by apply Hy.
Qed.

(** ** One turn of the loop *)

Lemma loop_body_run t w figs f c p :
  df w = Some t → figures w = figs ++ [f] →
  c ∈ available_countries t →
  engine_forecast t c = Ok p → length p = forecast_steps →
  loop_body (length figs) c w
  = (Ok tt,
     set_figures
       (figs ++ [with_lines f [historical_line t c (prop_cycle f);
                               forecast_line t c (prop_cycle f)] 1]) w).
Proof.
  intros Hdf Hfig Hc Hp Hlen.
  destruct (known_country_last_row t c Hc) as (r & Hrow & _).
  assert (Hlast : last (Year <$> country_rows t c) = Some (Year r))
    by (by rewrite fmap_last, Hrow).
  unfold forecast_country, bind, self_df. rewrite Hdf.
  fold (country_rows t c).
  unfold ax_plot. rewrite decide_True by (by rewrite !length_fmap).
  unfold update_figure, modify, lift. cbn [figures set_figures].
  rewrite Hfig, alter_last.
  fold (engine_forecast t c). rewrite Hp. unfold last_year. rewrite Hlast.
  unfold last_line_color. cbn [figures set_figures].
  rewrite lookup_last_app. cbn [mbind option_bind lines add_line].
  rewrite last_snoc. cbn [color].
  rewrite np_arange_forecast.
  rewrite decide_True by (by rewrite forecast_periods_length).
  cbn [figures set_figures]. rewrite alter_last.
  f_equal. unfold set_figures. cbn. f_equal. f_equal. f_equal.
  unfold with_lines, add_line, historical_line, forecast_line. cbn.
  rewrite Hlast, Hp, <- app_assoc, Nat.add_1_r. done.
Qed.

(** ** The whole loop *)

Lemma with_lines_nil (f : Figure float64) : with_lines f [] 0 = f.
Proof. destruct f. unfold with_lines. cbn. by rewrite app_nil_r, Nat.add_0_r. Qed.

Lemma with_lines_twice (f : Figure float64) l1 l2 n1 n2 :
  with_lines (with_lines f l1 n1) l2 n2 = with_lines f (l1 ++ l2) (n1 + n2).
Proof. unfold with_lines. cbn. by rewrite app_assoc, Nat.add_assoc. Qed.

Lemma set_figures_same w : set_figures (figures w) w = w.
Proof. by destruct w. Qed.

Lemma loop_run t cs :
  Forall (λ c, c ∈ available_countries t) cs →
  Forall (engine_ok t) cs →
  ∀ w figs f,
    df w = Some t → figures w = figs ++ [f] →
    for_each cs (loop_body (length figs)) w
    = (Ok tt,
       set_figures
         (figs ++ [with_lines f (result_lines t (prop_cycle f) cs) (length cs)])
         w).
Proof.
  intros Hknown Hok.
  induction cs as [|c r IH]; intros w figs f Hdf Hfig.
  - cbn. unfold ret. by rewrite with_lines_nil, <- Hfig, set_figures_same.
  - apply Forall_cons in Hknown as [Hc Hknown].
    apply Forall_cons in Hok as [(p & Hp & Hlen) Hok].
    cbn [for_each]. unfold bind at 1.
    rewrite (loop_body_run t w figs f c p) by done.
    rewrite (IH Hknown Hok _ figs _) by done.
    rewrite with_lines_twice. cbn [prop_cycle with_lines result_lines length].
    by rewrite Nat.add_1_r.
Qed.


(** ** Runs of [predictor] on a loaded table *)

(** Runs the method up to the selection of the known names. *)
Ltac enter_predictor Hdf :=
  unfold predictor, bind, warnings_filterwarnings, modify, ret, gets,
    self_df, lift;
  cbn [df set_filters]; rewrite Hdf;
  cbn [df set_filters]; rewrite Hdf.

Lemma predictor_not_a_list v w :
  is_list v = false →
  run_predictor v w = (Raise InvalidArgument, silenced w).
Proof. by destruct v. Qed.

Lemma predictor_selection_fails t w items e :
  df w = Some t →
  select_available (available_countries t) items = Raise e →
  run_predictor (PyList items) w = (Raise e, silenced w).
Proof. intros Hdf Hsel. enter_predictor Hdf. by rewrite Hsel. Qed.

Lemma predictor_none_known t w items :
  df w = Some t →
  select_available (available_countries t) items = Ok [] →
  run_predictor (PyList items) w = (Raise (UnknownCountries t), silenced w).
Proof. intros Hdf Hsel. enter_predictor Hdf. by rewrite Hsel. Qed.

Lemma predictor_too_many t w items c cs :
  df w = Some t →
  select_available (available_countries t) items = Ok (c :: cs) →
  (3 < length items)%nat →
  run_predictor (PyList items) w = (Raise TooManyCountries, silenced w).
Proof.
  intros Hdf Hsel Hlen. enter_predictor Hdf. rewrite Hsel.
  by rewrite decide_True.
Qed.

Lemma predictor_draws t w items c cs :
  df w = Some t →
  select_available (available_countries t) items = Ok (c :: cs) →
  (length items ≤ 3)%nat →
  Forall (λ c, c ∈ available_countries t) (c :: cs) →
  Forall (engine_ok t) (c :: cs) →
  run_predictor (PyList items) w = (Ok tt, shown t (c :: cs) w).
Proof.
  intros Hdf Hsel Hlen Hknown Hok. enter_predictor Hdf. rewrite Hsel.
  rewrite decide_False by lia.
  unfold plt_subplots. cbn [figures set_figures set_filters].
  rewrite (loop_run t (c :: cs) Hknown Hok _ (figures w) new_figure)
    by done.
  unfold update_figure, plt_gcf, modify, gets, plt_show.
  cbn [figures set_figures set_filters displayed set_displayed df filters].
  repeat (rewrite alter_last || rewrite pred_length_snoc).
  unfold shown, set_figures, set_displayed, set_filters.
  cbn [figures displayed df filters]. done.
Qed.

(** ** Frame conditions, step by step *)

Lemma stable_bind {A B} (R : world → world → Prop) `{!PreOrder R}
    (m : M float64 A) (k : A → M float64 B) :
  stable R m → (∀ a, stable R (k a)) → stable R (bind m k).
Proof.
  intros Hm Hk w. unfold bind. specialize (Hm w).
  destruct (m w) as [[a|e] w']; cbn in *; [|done].
  by etrans; [|apply Hk].
Qed.

Lemma stable_for_each {A} (R : world → world → Prop) `{!PreOrder R}
    (l : list A) (body : A → M float64 unit) :
  (∀ a, stable R (body a)) → stable R (for_each l body).
Proof.
  intros Hbody. induction l as [|a r IH]; cbn [for_each].
  - by intros w.
  - by apply stable_bind.
Qed.

Lemma stable_same {A} (R : world → world → Prop) `{!PreOrder R}
    (m : M float64 A) :
  (∀ w, snd (m w) = w) → stable R m.
Proof. intros Hm w. by rewrite Hm. Qed.

Lemma stable_figures {A} (R : world → world → Prop) (m : M float64 A) :
  (∀ w, ∃ fg ds, snd (m w) = set_figures fg (set_displayed ds w)) →
  (∀ w fg ds, R w (set_figures fg (set_displayed ds w))) →
  stable R m.
Proof. intros Hm HR w. destruct (Hm w) as (fg & ds & ->). apply HR. Qed.

Global Instance keeps_table_preorder : PreOrder (@keeps_table float64).
Proof. split; [by intros w t|]. intros w1 w2 w3 H12 H23 t Ht. auto. Qed.

Global Instance keeps_filters_preorder : PreOrder (@keeps_filters float64).
Proof.
  split; [by intros w|]. unfold keeps_filters. intros w1 w2 w3 H12 H23.
  congruence.
Qed.

(** The pyplot primitives and the pure steps change nothing but the
    figures. *)
Lemma only_figures_ret {A} (a : A) w :
  ∃ fg ds, snd (ret (float64:=float64) a w) = set_figures fg (set_displayed ds w).
Proof. exists (figures w), (displayed w). by destruct w. Qed.

Lemma only_figures_raise {A} e w :
  ∃ fg ds, snd (raise (float64:=float64) (A:=A) e w)
           = set_figures fg (set_displayed ds w).
Proof. exists (figures w), (displayed w). by destruct w. Qed.

Lemma only_figures_lift {A} (o : outcome A) w :
  ∃ fg ds, snd (lift (float64:=float64) o w) = set_figures fg (set_displayed ds w).
Proof. exists (figures w), (displayed w). by destruct w. Qed.

Lemma only_figures_gets {A} (f : world → A) w :
  ∃ fg ds, snd (gets f w) = set_figures fg (set_displayed ds w).
Proof. exists (figures w), (displayed w). by destruct w. Qed.

Lemma only_figures_self_df w :
  ∃ fg ds, snd (self_df w) = set_figures fg (set_displayed ds w).
Proof.
  exists (figures w), (displayed w). unfold self_df.
  by destruct w as [[?|] ? ? ?].
Qed.

Lemma only_figures_subplots w :
  ∃ fg ds, snd (plt_subplots w) = set_figures fg (set_displayed ds w).
Proof. eexists _, (displayed w). by destruct w. Qed.

Lemma only_figures_update h (f : Figure float64 → Figure float64) w :
  ∃ fg ds, snd (update_figure h f w) = set_figures fg (set_displayed ds w).
Proof. eexists _, (displayed w). by destruct w. Qed.

Lemma only_figures_plot ax x (y : list float64) lbl ls col w :
  ∃ fg ds, snd (ax_plot ax x y lbl ls col w) = set_figures fg (set_displayed ds w).
Proof.
  unfold ax_plot. case_decide.
  - apply only_figures_update.
  - apply only_figures_raise.
Qed.

Lemma only_figures_color ax w :
  ∃ fg ds, snd (last_line_color ax w) = set_figures fg (set_displayed ds w).
Proof.
  exists (figures w), (displayed w). unfold last_line_color.
  by destruct (_ ≫= _); destruct w.
Qed.

Lemma only_figures_show w :
  ∃ fg ds, snd (plt_show w) = set_figures fg (set_displayed ds w).
Proof. eexists _, _. by destruct w. Qed.

Lemma get_data_keeps_table : stable keeps_table (get_data read_csv).
Proof.
  intros w t Ht. unfold get_data. by rewrite Ht.
Qed.

Lemma get_data_keeps_filters : stable keeps_filters (get_data read_csv).
Proof.
  intros w. unfold get_data, keeps_filters.
  by destruct (df w), read_csv.
Qed.

Lemma figures_keep_table w fg ds :
  keeps_table w (set_figures fg (set_displayed ds w)).
Proof. by intros t. Qed.

Lemma figures_keep_filters w fg ds :
  keeps_filters w (set_figures fg (set_displayed ds w)).
Proof. done. Qed.

Section Frame.

Variable R : world → world → Prop.
Context `{!PreOrder R}.
Hypothesis R_figures : ∀ w fg ds, R w (set_figures fg (set_displayed ds w)).
Hypothesis R_get_data : stable R (get_data read_csv).

Local Ltac frame_leaf lem :=
  apply (stable_figures R); [intros ?; apply lem | apply R_figures].

Local Ltac frame :=
  repeat first
    [ refine (stable_bind R _ _ _ _); [ | intros ? ]
    | refine (stable_for_each R _ _ _); intros ?
    | apply R_get_data
    | frame_leaf (@only_figures_ret)
    | frame_leaf (@only_figures_raise)
    | frame_leaf (@only_figures_lift)
    | frame_leaf (@only_figures_gets)
    | frame_leaf only_figures_self_df
    | frame_leaf only_figures_subplots
    | frame_leaf only_figures_update
    | frame_leaf only_figures_plot
    | frame_leaf only_figures_color
    | frame_leaf only_figures_show
    | match goal with
      | |- stable _ (match ?x with _ => _ end) => destruct x
      end
    | progress cbv zeta ].

Lemma loop_body_stable ax c : stable R (loop_body ax c).
Proof. unfold forecast_country. frame. Qed.

(** Everything after the first statement of the method. *)
Lemma predictor_stable_after_filter v w :
  R (silenced w) (snd (run_predictor v w)).
Proof.
  unfold predictor. unfold bind at 1.
  unfold warnings_filterwarnings, modify. cbv beta iota.
  fold (silenced w).
  match goal with
  | |- R ?w1 (snd (?X ?w1)) => generalize w1; change (stable R X)
  end.
  frame.
Qed.

End Frame.

(** ** The claims *)

Lemma survivors_known t names :
  Forall (λ c, c ∈ available_countries t)
    (filter (λ s, s ∈ available_countries t) names).
Proof. apply Forall_forall. intros c Hc. by apply list_elem_of_filter in Hc as [? _]. Qed.

(** The x values of a forecast line start at the last historical year
    itself and end 30 years later. *)
Lemma forecast_line_periods t c k :
  c ∈ available_countries t → int64_years t →
  ∃ y, last (xdata (historical_line t c k)) = Some y
       ∧ xdata (forecast_line t c k) = seqZ y 31
       ∧ head (xdata (forecast_line t c k)) = Some y
       ∧ last (xdata (forecast_line t c k)) = Some (y + 30).
Proof.
  intros Hc Hy. destruct (known_country_last_row t c Hc) as (r & Hl & Hr & _).
  unfold int64_years in Hy. rewrite Forall_forall in Hy.
  destruct (Hy r Hr) as [Hlo Hhi].
  exists (Year r). cbn [xdata historical_line forecast_line].
  rewrite fmap_last, Hl. cbn [fmap option_fmap option_map].
  rewrite forecast_periods_in_range by done.
  split_and!; [done|done|done|].
  rewrite last_lookup, length_seqZ. apply lookup_seqZ. cbn. lia.
Qed.

(** C2 (as amended): a list of four or more names fails with
    TooManyCountries when at least one of the names is known; when none is
    known, the earlier check fires and the failure is UnknownCountries. *)
Theorem too_many_countries_after_unknown_check t w names :
  df w = Some t → (4 ≤ length names)%nat →
  ((∃ c, c ∈ names ∧ c ∈ available_countries t) →
   fst (predictor ARIMA_fit_forecast read_csv (PyList (PyStr <$> names)) w) = Raise TooManyCountries)
  ∧ ((∀ c, c ∈ names → c ∉ available_countries t) →
     fst (predictor ARIMA_fit_forecast read_csv (PyList (PyStr <$> names)) w)
     = Raise (UnknownCountries t)).
Proof.
  intros Hdf Hlen. split.
  - intros (c & Hc & Hin).
    destruct (filter_known_cons _ names c Hc Hin) as (c' & cs & Hsel).
    rewrite (predictor_too_many t w _ c' cs); [done|done| |].
    + by rewrite select_available_strings, Hsel.
    + rewrite length_fmap. lia.
  - intros Hnone. rewrite (predictor_none_known t w); [done|done|].
    rewrite select_available_strings. f_equal.
    by apply filter_known_nil.
Qed.




(** C7: when no name of the list is known, the run fails with
    UnknownCountries, and every known country occurs in the message, which
    is the fixed prefix followed by the known countries joined by commas. *)
Theorem unknown_countries_lists_known t w names :
  df w = Some t →
  (∀ c, c ∈ names → c ∉ available_countries t) →
  ∃ msg listed,
    fst (predictor ARIMA_fit_forecast read_csv (PyList (PyStr <$> names)) w) = Raise (ValueError msg)
    ∧ ValueError msg = UnknownCountries t
    ∧ msg = msg_no_valid_prefix +:+ join ", " listed
    ∧ NoDup listed
    ∧ (∀ c, c ∈ listed ↔ c ∈ available_countries t)
    ∧ (∀ c, c ∈ available_countries t → is_substring c msg).
Proof.
  intros Hdf Hnone. eexists _, (elements (available_countries t)).
  split_and!.
  - rewrite (predictor_none_known t w); [done|done|].
    rewrite select_available_strings. f_equal. by apply filter_known_nil.
  - done.
  - done.
  - apply NoDup_elements.
  - intros c. apply elem_of_elements.
  - intros c Hc. apply is_substring_prefixed, is_substring_join.
    by apply elem_of_elements.
Qed.

(** C9: a loaded table is the same after the call as before it, whatever
    the argument and whether the call returns or raises. *)
Theorem table_not_mutated v w t :
  df w = Some t → df (snd (predictor ARIMA_fit_forecast read_csv v w)) = Some t.
Proof.
  intros Hdf.
  apply (predictor_stable_after_filter keeps_table
           figures_keep_table get_data_keeps_table v w).
  done.
Qed.

(** C10: every call, whatever its argument and outcome, leaves the
    catch-all "ignore" entry at the head of the warning filters: the entry
    is installed by the first statement, before any check, and no later
    step of the method touches the filters again. *)
Theorem warnings_disabled_and_not_restored v w :
  filters (snd (predictor ARIMA_fit_forecast read_csv v w))
  = add_filter (catch_all "ignore") (filters w)
  ∧ all_warnings_ignored (filters (snd (predictor ARIMA_fit_forecast read_csv v w))).
Proof.
  assert (H : filters (snd (run_predictor v w))
              = add_filter (catch_all "ignore") (filters w)).
  { apply (predictor_stable_after_filter keeps_filters
             figures_keep_filters get_data_keeps_filters v w). }
  split; [done|]. unfold all_warnings_ignored. rewrite H. done.
Qed.

(** What a valid call with a single known country shows: two lines, the
    second with 31 x values that start at the last year of the first. *)
Lemma single_country_forecast t w c :
  df w = Some t → c ∈ available_countries t → int64_years t →
  engine_ok t c →
  let out := run_predictor (PyList [PyStr c]) w in
  fst out = Ok tt
  ∧ ∃ fig hist fc y,
      displayed (snd out) = displayed w ++ figures w ++ [fig]
      ∧ lines fig = [hist; fc]
      ∧ last (xdata hist) = Some y
      ∧ length (ydata fc) = 31%nat
      ∧ xdata fc = seqZ y 31.
Proof.
  intros Hdf Hc Hy Hok out. subst out.
  rewrite (predictor_draws t w [PyStr c] c []); try done.
  - split; [done|].
    destruct (forecast_line_periods t c 0 Hc Hy) as (y & Hlast & Hx & _).
    destruct Hok as (p & Hp & Hlen).
    eexists _, _, _, y. split; [reflexivity|]. split; [reflexivity|].
    split; [done|]. split; [|done].
    simpl. by rewrite Hp.
  - cbn. by rewrite decide_True.
  - cbn. lia.
  - by apply Forall_singleton.
  - by apply Forall_singleton.
Qed.

End Properties.

(** ** Evaluation on the concrete table *)

(** Settles a decidable proposition by evaluating its decision procedure. *)
Ltac decide_by_evaluation :=
  apply (bool_decide_unpack _); vm_compute; exact I.

Lemma naive_forecast_ok (t : DataFrame Q) (c : string) :
  c ∈ available_countries t → engine_ok Demo.naive_forecast t c.
Proof.
  intros Hc. destruct (known_country_last_row t c Hc) as (r & Hl & _).
  exists (replicate forecast_steps (tfp r)).
  unfold engine_ok, engine_forecast, Demo.naive_forecast.
  rewrite fmap_last, Hl. split; [done|]. by rewrite length_replicate.
Qed.

Lemma naive_forecast_ok_survivors (t : DataFrame Q) (names : list string) :
  Forall (engine_ok Demo.naive_forecast t)
    (filter (λ s, s ∈ available_countries t) names).
Proof.
  apply Forall_forall. intros c Hc. apply naive_forecast_ok.
  by apply list_elem_of_filter in Hc as [? _].
Qed.

Lemma demo_int64_years : int64_years Demo.table.
Proof. decide_by_evaluation. Qed.

Lemma demo_France_known : "France" ∈ available_countries Demo.table.
Proof. decide_by_evaluation. Qed.

(** C1: on the series 1961..2019 of France the call succeeds and shows two
    lines; the forecast line has 31 values, but its periods are 2019..2049:
    they start at the last historical year, not one year after it, and stop
    short of 2050. *)
Theorem forecast_periods_start_at_last_historical_year :
  ∃ hist fc,
    fst (Demo.run (PyList [PyStr "France"])) = Ok tt
    ∧ lines <$> displayed (snd (Demo.run (PyList [PyStr "France"])))
      = [[hist; fc]]
    ∧ last (xdata hist) = Some 2019
    ∧ length (ydata fc) = 31%nat
    ∧ xdata fc = seqZ 2019 31
    ∧ head (xdata fc) = Some 2019
    ∧ last (xdata fc) = Some 2049
    ∧ 2050 ∉ xdata fc.
Proof.
  eexists _, _. split; [by vm_compute|]. split; [by vm_compute|].
  split; [by vm_compute|]. split; [by vm_compute|].
  split; [by vm_compute|]. split; [by vm_compute|].
  split; [by vm_compute|].
  cbn [xdata]. intros Hin.
  change (2050 ∈ seqZ 2019 31) in Hin. apply elem_of_seqZ in Hin. lia.
Qed.

(** C2, counterexample: four names, none of them known; the failure is
    UnknownCountries, not TooManyCountries. *)
Lemma four_unknown_names_fail_as_unknown :
  length ["Atlantis"; "Narnia"; "Mordor"; "Oz"] = 4%nat
  ∧ fst (Demo.run (PyList (PyStr <$> ["Atlantis"; "Narnia"; "Mordor"; "Oz"])))
    = Raise (UnknownCountries Demo.table)
  ∧ fst (Demo.run (PyList (PyStr <$> ["Atlantis"; "Narnia"; "Mordor"; "Oz"])))
    ≠ Raise TooManyCountries.
Proof. split; [done|]. split; [by vm_compute|]. by vm_compute. Qed.

Lemma too_many_countries_after_unknown_check_witness :
  fst (Demo.run (PyList (PyStr <$> ["Atlantis"; "France"; "Mordor"; "Oz"])))
  = Raise TooManyCountries
  ∧ fst (Demo.run (PyList (PyStr <$> ["Atlantis"; "Narnia"; "Mordor"; "Oz"])))
    = Raise (UnknownCountries Demo.table).
Proof.
  split.
  - apply (too_many_countries_after_unknown_check Demo.naive_forecast None
             Demo.table Demo.world0 ["Atlantis"; "France"; "Mordor"; "Oz"]).
    + reflexivity.
    + simpl. lia.
    + exists "France". split; [|decide_by_evaluation].
      right. left.
  - apply (too_many_countries_after_unknown_check Demo.naive_forecast None
             Demo.table Demo.world0 ["Atlantis"; "Narnia"; "Mordor"; "Oz"]).
    + reflexivity.
    + simpl. lia.
    + apply Forall_forall. decide_by_evaluation.
Defined.







Lemma unknown_countries_lists_known_witness :
  ∃ msg,
    fst (Demo.run (PyList (PyStr <$> ["Atlantis"; "Narnia"])))
    = Raise (ValueError msg)
    ∧ is_substring "France" msg ∧ is_substring "Germany" msg.
Proof.
  destruct (unknown_countries_lists_known Demo.naive_forecast None
              Demo.table Demo.world0 ["Atlantis"; "Narnia"])
    as (msg & listed & Hrun & _ & _ & _ & _ & Hsub).
  - reflexivity.
  - apply Forall_forall. decide_by_evaluation.
  - exists msg. split; [exact Hrun|].
    split; apply Hsub; decide_by_evaluation.
Defined.

Lemma table_not_mutated_witness :
  df (snd (Demo.run (PyList [PyStr "France"; PyStr "Atlantis"]))) = Some Demo.table
  ∧ df (snd (Demo.run PyNone)) = Some Demo.table.
Proof.
  split.
  - apply (table_not_mutated Demo.naive_forecast None). reflexivity.
  - apply (table_not_mutated Demo.naive_forecast None). reflexivity.
Defined.

(** * Further properties of the methods that read [self.df] *)

Section MoreProperties.

Context {float64 : Type}.
Variable ARIMA_fit_forecast :
  list float64 → nat * nat * nat → nat → outcome (list float64).
Variable read_csv : option (DataFrame float64).
Variable row_sum : Row float64 → float64.
Variable NaN : float64.

Implicit Types (t raw : DataFrame float64) (w : World float64).
Implicit Types (c s : string) (names cs : list string).

(** ** [unique] *)

Lemma elem_of_unique_from {A} `{EqDecision A} (seen l : list A) (x : A) :
  x ∈ unique_from seen l ↔ x ∈ l ∧ x ∉ seen.
Proof.
  revert seen. induction l as [|y r IH]; intros seen; cbn [unique_from].
  - split; [by intros ?%elem_of_nil|by intros [?%elem_of_nil _]].
  - destruct (decide (y ∈ seen)) as [Hy|Hy].
    + rewrite IH, elem_of_cons. split.
      * intros [Hx Hs]. by split; [right|].
      * intros [[->|Hx] Hs]; [done|done].
    + rewrite !elem_of_cons, IH, not_elem_of_cons. split.
      * intros [->|(Hx & Hne & Hs)]; split; auto.
      * intros [[->|Hx] Hs]; [by left|].
        destruct (decide (x = y)) as [->|Hne]; [by left|by right].
Qed.

Lemma NoDup_unique_from {A} `{EqDecision A} (seen l : list A) :
  NoDup (unique_from seen l).
Proof.
  revert seen. induction l as [|y r IH]; intros seen; cbn [unique_from].
  - constructor.
  - destruct (decide (y ∈ seen)); [apply IH|].
    constructor; [|apply IH].
    rewrite elem_of_unique_from. intros [_ Hy]. apply Hy. left.
Qed.

Lemma unique_from_sublist {A} `{EqDecision A} (seen l : list A) :
  unique_from seen l `sublist_of` l.
Proof.
  revert seen. induction l as [|y r IH]; intros seen; cbn [unique_from].
  - done.
  - destruct (decide (y ∈ seen)).
    + by apply sublist_cons.
    + by apply sublist_skip.
Qed.

Lemma elem_of_unique {A} `{EqDecision A} (l : list A) (x : A) :
  x ∈ unique l ↔ x ∈ l.
Proof.
  unfold unique. rewrite elem_of_unique_from. split; [by intros [? _]|].
  intros Hx. split; [done|]. by intros ?%elem_of_nil.
Qed.

(** ** The lazy load inside [predictor] *)

Lemma get_data_loaded w t : df w = Some t → get_data read_csv w = (Ok tt, w).
Proof. intros Hdf. unfold get_data. by rewrite Hdf. Qed.

Lemma get_data_fresh w raw :
  df w = None → read_csv = Some raw →
  get_data read_csv w = (Ok tt, set_df (Some (loaded_table raw)) w).
Proof. intros Hdf Hcsv. unfold get_data. by rewrite Hdf, Hcsv. Qed.

Lemma get_data_unreachable w :
  df w = None → read_csv = None → get_data read_csv w = (Ok tt, w).
Proof. intros Hdf Hcsv. unfold get_data. by rewrite Hdf, Hcsv. Qed.

(** X1: for a list argument, the load that [predictor] performs on an
    object without a table has the same result as calling [get_data] before
    [predictor]. *)
Theorem predictor_loads_like_get_data w items :
  predictor ARIMA_fit_forecast read_csv (PyList items) w
  = predictor ARIMA_fit_forecast read_csv (PyList items)
      (snd (get_data read_csv w)).
Proof.
  destruct (df w) as [t|] eqn:Hdf.
  - by rewrite (get_data_loaded w t).
  - destruct read_csv as [raw|] eqn:Hcsv.
    + unfold get_data. rewrite Hdf. cbn [snd].
      unfold predictor, bind, warnings_filterwarnings, modify, ret, gets,
        get_data, self_df, lift.
      do 3 (cbn [df set_filters set_df]; rewrite ?Hdf). done.
    + unfold get_data. by rewrite Hdf.
Qed.

Lemma loaded_table_excludes_aggregates raw c :
  c ∈ available_countries (loaded_table raw) → c ∉ aggregated_columns.
Proof.
  unfold available_countries, loaded_table. intros Hc.
  apply elem_of_list_to_set, list_elem_of_fmap in Hc as (r & -> & Hr).
  by apply list_elem_of_filter in Hr as [? _].
Qed.

(** X2: on an object whose table is loaded by [get_data], the aggregated
    regions ("World", "High income", ...) are unknown to [predictor], even
    though the CSV has rows for them: a list made of such names fails with
    UnknownCountries, and the table stays loaded. *)
Theorem aggregated_regions_are_unknown w raw names :
  df w = None → read_csv = Some raw →
  (∀ c, c ∈ names → c ∈ aggregated_columns) →
  predictor ARIMA_fit_forecast read_csv (PyList (PyStr <$> names)) w
  = (Raise (UnknownCountries (loaded_table raw)),
     set_df (Some (loaded_table raw)) (silenced w)).
Proof.
  intros Hdf Hcsv Hagg.
  rewrite predictor_loads_like_get_data, (get_data_fresh w raw) by done.
  cbn [snd].
  rewrite (predictor_none_known _ _ (loaded_table raw));
    [reflexivity|reflexivity|].
  rewrite select_available_strings. f_equal. apply filter_known_nil.
  intros c Hc Hin. apply (loaded_table_excludes_aggregates raw c Hin).
  by apply Hagg.
Qed.

(** X3: when the object has no table and [get_data] cannot obtain the
    file, a list argument fails with the TypeError of subscripting [None]
    (not with a ValueError), whatever the list holds. *)
Theorem predictor_without_data w items :
  df w = None → read_csv = None →
  predictor ARIMA_fit_forecast read_csv (PyList items) w
  = (Raise (TypeError "'NoneType' object is not subscriptable"), silenced w).
Proof.
  intros Hdf Hcsv.
  unfold predictor, bind, warnings_filterwarnings, modify, ret, gets,
    get_data, self_df, lift.
  do 3 (cbn [df set_filters set_df]; rewrite ?Hdf, ?Hcsv). done.
Qed.

(** X4: a call that [predictor] rejects in its validation (not a list; a
    list of names none of which is known; a list of more than three names)
    opens no figure and shows nothing: the only change to the process is
    the warning filter. *)
Theorem rejected_calls_draw_nothing v w :
  is_list v = false
  ∨ (∃ t names,
       v = PyList (PyStr <$> names) ∧ df w = Some t
       ∧ ((∀ c, c ∈ names → c ∉ available_countries t)
          ∨ (3 < length names)%nat)) →
  (∃ e, fst (predictor ARIMA_fit_forecast read_csv v w) = Raise e)
  ∧ snd (predictor ARIMA_fit_forecast read_csv v w) = silenced w.
Proof.
  intros [Hv|(t & names & -> & Hdf & Hcase)].
  - rewrite predictor_not_a_list by done. eauto.
  - destruct (filter (λ s, s ∈ available_countries t) names)
      as [|c cs] eqn:Hsel.
    + rewrite (predictor_none_known _ _ t); [eauto|done|].
      by rewrite select_available_strings, Hsel.
    + destruct Hcase as [Hnone|Hlen].
      * apply filter_known_nil in Hnone. congruence.
      * rewrite (predictor_too_many _ _ t w _ c cs); [eauto|done| |].
        -- by rewrite select_available_strings, Hsel.
        -- by rewrite length_fmap.
Qed.

(** ** Elements that cannot be hashed, and names that are not known *)

Lemma select_available_unhashable (avail : gset string) (items : list PyVal) :
  Exists (λ v, unhashable v ≠ None) items →
  ∃ ty, select_available avail items
        = Raise (TypeError ("unhashable type: '" +:+ ty +:+ "'")).
Proof.
  induction items as [|v r IH]; intros Hex; [by apply Exists_nil in Hex|].
  cbn [select_available].
  destruct (unhashable v) as [ty|] eqn:Hv; [by exists ty|].
  apply Exists_cons in Hex as [Hex|Hex]; [done|].
  destruct (IH Hex) as (ty & ->). by exists ty.
Qed.

(** X16: a list with an element that cannot be hashed (a nested list, or a
    tuple holding one) makes the membership test of the filter raise a
    TypeError that is not the InvalidArgument of the type check; nothing
    is drawn, and neither the number of elements nor the presence of
    known names changes that. *)
Theorem unhashable_element_raises t w items :
  df w = Some t →
  Exists (λ v, unhashable v ≠ None) items →
  ∃ msg,
    predictor ARIMA_fit_forecast read_csv (PyList items) w
    = (Raise (TypeError msg), silenced w)
    ∧ TypeError msg ≠ InvalidArgument.
Proof.
  intros Hdf Hex.
  destruct (select_available_unhashable (available_countries t) items Hex)
    as (ty & Hsel).
  eexists. split.
  - by apply (predictor_selection_fails _ _ t).
  - unfold InvalidArgument. intros Heq. injection Heq as Heq.
    discriminate Heq.
Qed.

Lemma filter_known_twice (avail : gset string) names :
  filter (λ s, s ∈ avail) (filter (λ s, s ∈ avail) names)
  = filter (λ s, s ∈ avail) names.
Proof.
  induction names as [|s r IH]; [done|].
  rewrite filter_cons. destruct (decide (s ∈ avail)) as [Hs|Hs]; [|done].
  by rewrite filter_cons, decide_True, IH.
Qed.

(** X17: on a loaded table and for a list of at most three names, the
    names that are not known have no influence at all: the call behaves,
    in its outcome and in every effect, like the call on the list with
    those names removed. *)
Theorem unknown_names_are_ignored t w names :
  df w = Some t → (length names ≤ 3)%nat →
  predictor ARIMA_fit_forecast read_csv (PyList (PyStr <$> names)) w
  = predictor ARIMA_fit_forecast read_csv
      (PyList (PyStr <$> filter (λ s, s ∈ available_countries t) names)) w.
Proof.
  intros Hdf Hlen.
  pose proof (length_filter (λ s, s ∈ available_countries t) names) as Hfl.
  unfold predictor, bind, warnings_filterwarnings, modify, ret, gets,
    self_df, lift.
  do 3 (cbn [df set_filters set_df]; rewrite ?Hdf).
  rewrite !select_available_strings, filter_known_twice.
  destruct (filter (λ s, s ∈ available_countries t) names) as [|c cs] eqn:Hsel;
    [done|].
  rewrite !decide_False by (rewrite length_fmap; lia). done.
Qed.

(** X18: once [get_data] has read a file, the object has a table, and no
    later call of [get_data] replaces it, whatever the file holds by
    then. *)
Theorem get_data_loads_once (csv1 csv2 : option (DataFrame float64)) w raw :
  csv1 = Some raw →
  (∃ t, df (snd (get_data csv1 w)) = Some t)
  ∧ get_data csv2 (snd (get_data csv1 w)) = (Ok tt, snd (get_data csv1 w)).
Proof.
  intros ->. assert (H : ∃ t, df (snd (get_data (Some raw) w)) = Some t).
  { unfold get_data. destruct (df w) as [t|] eqn:Hdf; cbn [snd]; eauto. }
  split; [done|]. destruct H as (t & Ht).
  unfold get_data at 1. by rewrite Ht.
Qed.

(** ** A fit that raises *)

Lemma for_each_app {A} (l1 l2 : list A) (body : A → M float64 unit) w :
  for_each (l1 ++ l2) body w
  = bind (for_each l1 body) (λ _, for_each l2 body) w.
Proof.
  revert w. induction l1 as [|a r IH]; intros w; cbn [for_each app].
  - done.
  - unfold bind. destruct (body a w) as [[[]|e] w']; [|done].
    by rewrite IH.
Qed.

Lemma loop_body_fails t w figs f c e :
  df w = Some t → figures w = figs ++ [f] →
  engine_forecast ARIMA_fit_forecast t c = Raise e →
  forecast_country ARIMA_fit_forecast (length figs) c w
  = (Raise e,
     set_figures
       (figs ++ [with_lines f [historical_line t c (prop_cycle f)] 1]) w).
Proof.
  intros Hdf Hfig He.
  unfold forecast_country, bind, self_df. rewrite Hdf.
  fold (country_rows t c).
  unfold ax_plot. rewrite decide_True by (by rewrite !length_fmap).
  unfold update_figure, modify, lift. cbn [figures set_figures].
  rewrite Hfig, alter_last.
  fold (engine_forecast ARIMA_fit_forecast t c). rewrite He.
  f_equal. f_equal. f_equal. f_equal.
  unfold with_lines, add_line, historical_line. cbn.
  by rewrite Nat.add_1_r.
Qed.

(** X5: an exception of the fit is not caught: it reaches the caller as it
    was raised.  The countries before the failing one are already drawn,
    together with the historical line of the failing one, on a figure that
    stays open and is never shown. *)
Theorem fit_exception_propagates t w names pre c post e :
  df w = Some t → (length names ≤ 3)%nat → int64_years t →
  filter (λ s, s ∈ available_countries t) names = pre ++ c :: post →
  Forall (engine_ok ARIMA_fit_forecast t) pre →
  engine_forecast ARIMA_fit_forecast t c = Raise e →
  let out :=
    predictor ARIMA_fit_forecast read_csv (PyList (PyStr <$> names)) w in
  fst out = Raise e
  ∧ displayed (snd out) = displayed w
  ∧ figures (snd out)
    = figures w
      ++ [with_lines new_figure
            (result_lines ARIMA_fit_forecast t 0 pre
               ++ [historical_line t c (length pre)])
            (S (length pre))].
Proof.
  intros Hdf Hlen Hy Hsel Hok He out. subst out.
  pose proof (survivors_known t names) as Hk. rewrite Hsel in Hk.
  apply Forall_app in Hk as [Hkpre _].
  unfold predictor, bind, warnings_filterwarnings, modify, ret, gets,
    self_df, lift.
  do 3 (cbn [df set_filters set_df]; rewrite ?Hdf).
  rewrite select_available_strings, Hsel.
  assert (∃ x xs, pre ++ c :: post = x :: xs) as (x & xs & Hl)
    by (destruct pre; eauto).
  rewrite Hl. rewrite decide_False by (rewrite length_fmap; lia).
  rewrite <- Hl.
  unfold plt_subplots. cbn [figures set_figures set_filters].
  rewrite for_each_app. unfold bind.
  rewrite (loop_run _ t pre Hkpre Hok _ (figures w) new_figure) by done.
  cbn [for_each]. unfold bind.
  rewrite (loop_body_fails t _ (figures w) _ c e) by done.
  rewrite with_lines_twice. cbn [fst snd displayed figures set_figures].
  split; [done|]. split; [done|].
  do 3 f_equal. cbn [prop_cycle with_lines new_figure]. lia.
Qed.

(** ** Colours and line styles *)

Lemma result_lines_lookup t k cs i c :
  cs !! i = Some c →
  result_lines ARIMA_fit_forecast t k cs !! (2 * i)%nat
  = Some (historical_line t c (k + i))
  ∧ result_lines ARIMA_fit_forecast t k cs !! (2 * i + 1)%nat
    = Some (forecast_line ARIMA_fit_forecast t c (k + i)).
Proof.
  revert k i. induction cs as [|x r IH]; intros k [|i] Hi; try done.
  - cbn in Hi. injection Hi as ->. by rewrite Nat.add_0_r.
  - cbn in Hi. destruct (IH (S k) i Hi) as [H1 H2].
    replace (2 * S i)%nat with (S (S (2 * i))) by lia.
    replace (k + S i)%nat with (S k + i)%nat by lia.
    by split.
Qed.

(** X6: in the figure a successful call shows, the i-th known country of
    the list has its historical line at position 2i, solid and labelled
    with the name, and its forecast line right after it, dashed; both have
    colour i of the cycle, so a forecast always has the colour of its own
    history and the (at most three) countries have different colours. *)
Theorem forecast_shares_colour_of_history t w names :
  df w = Some t →
  (length names ≤ 3)%nat →
  (∃ c, c ∈ names ∧ c ∈ available_countries t) →
  int64_years t →
  Forall (engine_ok ARIMA_fit_forecast t)
    (filter (λ s, s ∈ available_countries t) names) →
  ∃ fig,
    last (displayed
            (snd (predictor ARIMA_fit_forecast read_csv
                    (PyList (PyStr <$> names)) w))) = Some fig
    ∧ ∀ i c,
        filter (λ s, s ∈ available_countries t) names !! i = Some c →
        ∃ hist fc,
          lines fig !! (2 * i)%nat = Some hist
          ∧ lines fig !! (2 * i + 1)%nat = Some fc
          ∧ label hist = c ∧ label fc = c +:+ " (forecast)"
          ∧ linestyle hist = "-" ∧ linestyle fc = "--"
          ∧ color hist = i ∧ color fc = i.
Proof.
  intros Hdf Hlen (c0 & Hc0 & Hin0) Hy Hok.
  destruct (filter_known_cons _ names c0 Hc0 Hin0) as (c' & cs & Hsel).
  pose proof (survivors_known t names) as Hk.
  pose proof (length_filter (λ s, s ∈ available_countries t) names) as Hfl.
  rewrite Hsel in *.
  rewrite (predictor_draws _ _ t w _ c' cs); try done.
  - eexists. split.
    + cbn [snd displayed shown]. by rewrite !app_assoc, last_snoc.
    + intros i c Hi.
      destruct (result_lines_lookup t 0 (c' :: cs) i c Hi) as [H1 H2].
      pose proof (lookup_lt_Some _ _ _ Hi) as Hlt.
      eexists _, _. split; [exact H1|]. split; [exact H2|].
      cbn [label linestyle color historical_line forecast_line].
      unfold cycle_length. rewrite !Nat.mod_small by lia. done.
  - by rewrite select_available_strings, Hsel.
  - by rewrite length_fmap.
Qed.

(** ** get_countries *)

Lemma get_countries_loaded t w :
  df w = Some t →
  get_countries read_csv w = (Ok (unique (Entity <$> t)), w).
Proof.
  intros Hdf. unfold get_countries, bind, gets, ret, self_df.
  by rewrite Hdf; cbn; rewrite Hdf.
Qed.

(** X7: on a loaded table [get_countries] returns every entity of the
    table exactly once, in the order in which the entities appear in the
    table, and changes nothing. *)
Theorem get_countries_distinct_entities t w :
  df w = Some t →
  ∃ cs,
    get_countries read_csv w = (Ok cs, w)
    ∧ NoDup cs
    ∧ (∀ c, c ∈ cs ↔ ∃ r, r ∈ t ∧ Entity r = c)
    ∧ cs `sublist_of` (Entity <$> t)
    ∧ head cs = head (Entity <$> t).
Proof.
  intros Hdf. exists (unique (Entity <$> t)).
  split; [by apply get_countries_loaded|].
  split; [apply NoDup_unique_from|].
  split; [|split; [apply unique_from_sublist|]].
  - intros c. rewrite elem_of_unique, list_elem_of_fmap. split.
    + intros (r & -> & Hr). eauto.
    + intros (r & Hr & <-). eauto.
  - by destruct t.
Qed.

(** X8: the countries that the UnknownCountries error of [predictor]
    enumerates are, up to their order, the list that [get_countries]
    returns. *)
Theorem unknown_message_lists_get_countries t w :
  df w = Some t →
  ∃ cs listed,
    fst (get_countries read_csv w) = Ok cs
    ∧ UnknownCountries t
      = ValueError (msg_no_valid_prefix +:+ join ", " listed)
    ∧ listed ≡ₚ cs.
Proof.
  intros Hdf.
  exists (unique (Entity <$> t)), (elements (available_countries t)).
  split; [by rewrite (get_countries_loaded t)|]. split; [done|].
  apply NoDup_Permutation;
    [apply NoDup_elements|apply NoDup_unique_from|].
  intros c. rewrite elem_of_elements, elem_of_unique.
  unfold available_countries. by rewrite elem_of_list_to_set.
Qed.

(** X9: on an object without a table [get_countries] loads it first.  With
    a readable file the result holds exactly the entities of the file that
    are not aggregated regions, and the filtered table stays in
    [self.df]; without one the call fails with the TypeError of
    subscripting [None]. *)
Theorem get_countries_on_fresh_object w :
  df w = None →
  (∀ raw, read_csv = Some raw →
     ∃ cs,
       get_countries read_csv w = (Ok cs, set_df (Some (loaded_table raw)) w)
       ∧ ∀ c, c ∈ cs ↔
               ((c ∉ aggregated_columns) ∧ (∃ r, r ∈ raw ∧ Entity r = c)))
  ∧ (read_csv = None →
     get_countries read_csv w
     = (Raise (TypeError "'NoneType' object is not subscriptable"), w)).
Proof.
  intros Hdf. split.
  - intros raw Hcsv. exists (unique (Entity <$> loaded_table raw)). split.
    + unfold get_countries, bind, gets. rewrite Hdf.
      rewrite (get_data_fresh w raw Hdf Hcsv). unfold self_df, ret.
      cbn [df set_df]. reflexivity.
    + intros c. rewrite elem_of_unique, list_elem_of_fmap.
      unfold loaded_table. split.
      * intros (r & -> & Hr). apply list_elem_of_filter in Hr as [? ?]. eauto.
      * intros (Hc & r & Hr & <-). exists r. split; [done|].
        by apply list_elem_of_filter.
  - intros Hcsv. unfold get_countries, bind, gets. rewrite Hdf.
    rewrite (get_data_unreachable w Hdf Hcsv). unfold self_df.
    by rewrite Hdf.
Qed.

(** ** plot_country_chart: the pieces *)

Abbreviation chart := (plot_country_chart read_csv row_sum NaN).
Abbreviation Total := (Total_column row_sum NaN).
Abbreviation plot_one' := (plot_one row_sum NaN).
Abbreviation drawn := (drawn_on row_sum NaN).

Lemma Total_column_length (d : DataFrame float64) :
  length (Total d) = length d.
Proof.
  unfold Total_column. rewrite length_app, length_replicate, length_fmap.
  rewrite length_take. lia.
Qed.

Lemma Total_column_last (d : DataFrame float64) :
  d ≠ [] → last (Total d) = Some NaN.
Proof.
  intros Hd. unfold Total_column. rewrite length_fmap, length_take.
  assert (0 < length d)%nat by (destruct d; [done|cbn; lia]).
  replace (length d - (length d - 1) `min` length d)%nat with 1%nat by lia.
  apply last_snoc.
Qed.

Lemma Total_column_sums (d : DataFrame float64) :
  take (length d - 1) (Total d) = row_sum <$> take (length d - 1) d.
Proof.
  unfold Total_column. apply take_app_length'.
  rewrite length_fmap, length_take. lia.
Qed.

Lemma on_current_nil (g : Figure float64 → Figure float64) :
  on_current g [] = [g new_figure].
Proof. done. Qed.

Lemma on_current_snoc (g : Figure float64 → Figure float64) init f :
  on_current g (init ++ [f]) = init ++ [g f].
Proof.
  unfold on_current. destruct (init ++ [f]) as [|x r] eqn:E.
  - by destruct init.
  - rewrite <- E, pred_length_snoc. apply alter_last.
Qed.

Lemma on_current_compose (g1 g2 : Figure float64 → Figure float64) figs :
  on_current g2 (on_current g1 figs) = on_current (g2 ∘ g1) figs.
Proof.
  destruct figs as [|x r] using rev_ind.
  - done.
  - by rewrite !on_current_snoc.
Qed.

Lemma country_plot_run t w c :
  df w = Some t →
  country_plot row_sum NaN c w
  = (Ok tt, set_figures (on_current (plot_one' t c) (figures w)) w).
Proof.
  intros Hdf. unfold country_plot, bind, self_df. rewrite Hdf.
  unfold plt_plot.
  rewrite decide_True by (by rewrite Total_column_length, length_fmap).
  unfold plt_on_current, modify. cbn [figures set_figures].
  by rewrite on_current_compose.
Qed.

Lemma drawn_on_snoc t init f names :
  drawn t (init ++ [f]) names
  = init ++ [foldl (λ f c, plot_one' t c f) f names].
Proof.
  revert f. induction names as [|c r IH]; intros f; [done|].
  unfold drawn_on in *. cbn [foldl]. by rewrite on_current_snoc, IH.
Qed.

Lemma finished_chart t names title :
  on_current (chart_finish title) (drawn t [] names)
  = [chart_finish title (foldl (λ f c, plot_one' t c f) new_figure names)].
Proof.
  destruct names as [|c r]; [done|].
  unfold drawn_on. cbn [foldl]. rewrite on_current_nil.
  change (foldl _ [?f] r) with (drawn t ([] ++ [f]) r).
  by rewrite drawn_on_snoc, (on_current_snoc _ []).
Qed.

Lemma plotted_labels t names (f : Figure float64) :
  label <$> lines (foldl (λ f c, plot_one' t c f) f names)
  = (label <$> lines f) ++ names.
Proof.
  revert f. induction names as [|c r IH]; intros f; cbn [foldl].
  - by rewrite app_nil_r.
  - rewrite IH. cbn [plot_one set_legend add_line lines].
    by rewrite fmap_app, <- app_assoc.
Qed.

Lemma list_title_joined names (a : string) :
  foldl (λ title s, title +:+ s +:+ ", ") a names
  = a +:+ join "" ((λ s, s +:+ ", ") <$> names).
Proof.
  revert a. induction names as [|s r IH]; intros a; cbn [foldl fmap list_fmap].
  - cbn. by rewrite append_nil_r.
  - rewrite IH, append_assoc. f_equal.
    destruct r as [|s' r']; [cbn; by rewrite append_nil_r|done].
Qed.

Lemma known_by_get_countries t c :
  c ∈ unique (Entity <$> t) ↔ ∃ r, r ∈ t ∧ Entity r = c.
Proof.
  rewrite elem_of_unique, list_elem_of_fmap. split.
  - intros (r & -> & Hr). eauto.
  - intros (r & Hr & <-). eauto.
Qed.

(** The loop over a list of names that are all known. *)
Lemma plot_each_known t names : ∀ w title,
  df w = Some t →
  Forall (λ c, c ∈ unique (Entity <$> t)) names →
  plot_each read_csv row_sum NaN (PyStr <$> names) title w
  = (Ok (foldl (λ title s, title +:+ s +:+ ", ") title names),
     set_figures (drawn t (figures w) names) w).
Proof.
  induction names as [|c r IH]; intros w title Hdf Hk.
  - cbn. unfold ret. by rewrite set_figures_same.
  - apply Forall_cons in Hk as [Hc Hk].
    cbn [fmap list_fmap plot_each]. unfold bind at 1.
    rewrite (get_countries_loaded t w Hdf).
    rewrite decide_True by done. unfold bind at 1.
    rewrite (country_plot_run t w c Hdf).
    change (list_fmap string PyVal PyStr r) with (PyStr <$> r).
    rewrite IH by done. done.
Qed.

(** The loop up to the first name that is not known. *)
Lemma plot_each_unknown t pre bad post : ∀ w title,
  df w = Some t →
  Forall (λ c, c ∈ unique (Entity <$> t)) pre →
  bad ∉ unique (Entity <$> t) →
  plot_each read_csv row_sum NaN (PyStr <$> pre ++ bad :: post) title w
  = (Raise (TypeError msg_country_unknown),
     set_figures (drawn t (figures w) pre) w).
Proof.
  induction pre as [|c r IH]; intros w title Hdf Hk Hbad.
  - cbn [app fmap list_fmap plot_each]. unfold bind at 1.
    rewrite (get_countries_loaded t w Hdf).
    rewrite decide_False by done. unfold raise, drawn_on. cbn [foldl].
    by rewrite set_figures_same.
  - apply Forall_cons in Hk as [Hc Hk].
    cbn [app fmap list_fmap plot_each]. unfold bind at 1.
    rewrite (get_countries_loaded t w Hdf).
    rewrite decide_True by done. unfold bind at 1.
    rewrite (country_plot_run t w c Hdf).
    change (list_fmap string PyVal PyStr (r ++ bad :: post))
      with (PyStr <$> r ++ bad :: post).
    rewrite IH by done. done.
Qed.

Lemma forallb_is_str_strings names : forallb is_str (PyStr <$> names) = true.
Proof. induction names as [|s r IH]; [done|]. by cbn. Qed.

(** Runs the method up to the branch on the type of [args]. *)
Ltac enter_chart Hdf :=
  unfold plot_country_chart, bind, ret, gets, self_df_columns;
  cbn [df]; rewrite Hdf; cbn [df]; rewrite ?Hdf.

(** The four decorations and the final [plt.show()]. *)
Ltac decorate_and_show :=
  unfold plt_on_current, modify, plt_show;
  cbn [figures set_figures displayed set_displayed];
  rewrite !on_current_compose;
  unfold set_figures, set_displayed; cbn [df filters figures displayed].

(** ** plot_country_chart: the properties *)

(** X10: [plot_country_chart] raises its two type errors without loading,
    drawing or showing anything: for an argument that is neither a list
    nor a string, and (on a loaded table) for a list with an element that
    is not a string, even when known names stand before that element. *)
Theorem chart_type_errors_change_nothing args w :
  (is_list args = false → is_str args = false →
   plot_country_chart read_csv row_sum NaN args w = (Raise (TypeError msg_args_type), w))
  ∧ (∀ t items,
       args = PyList items → df w = Some t →
       forallb is_str items = false →
       plot_country_chart read_csv row_sum NaN args w = (Raise (TypeError msg_pass_countries), w)).
Proof.
  split.
  - intros Hl Hs. by destruct args.
  - intros t items -> Hdf Hitems. enter_chart Hdf. by rewrite Hitems.
Qed.

(** X11: a name that is not in the table raises "Country does not exist",
    as a ValueError when the argument is that string, as a TypeError when
    it is an element of a list.  In the list case the names before it are
    already drawn on the current figure, which is left open and not shown. *)
Theorem chart_unknown_country t w :
  df w = Some t →
  (∀ s, s ∉ unique (Entity <$> t) →
        plot_country_chart read_csv row_sum NaN (PyStr s) w = (Raise (ValueError msg_country_unknown), w))
  ∧ (∀ pre bad post,
       Forall (λ c, c ∈ unique (Entity <$> t)) pre →
       bad ∉ unique (Entity <$> t) →
       plot_country_chart read_csv row_sum NaN (PyList (PyStr <$> pre ++ bad :: post)) w
       = (Raise (TypeError msg_country_unknown),
          set_figures (drawn_on row_sum NaN t (figures w) pre) w)
       ∧ (figures w = [] → pre ≠ [] →
          ∃ fig, drawn_on row_sum NaN t (figures w) pre = [fig]
                 ∧ label <$> lines fig = pre)).
Proof.
  intros Hdf. split.
  - intros s Hs. enter_chart Hdf.
    rewrite (get_countries_loaded t w Hdf). by rewrite decide_False.
  - intros pre bad post Hk Hbad. split.
    + enter_chart Hdf. rewrite forallb_is_str_strings.
      by rewrite (plot_each_unknown t pre bad post w _ Hdf Hk Hbad).
    + intros Hfig Hpre. rewrite Hfig. destruct pre as [|c r]; [done|].
      unfold drawn_on. cbn [foldl]. rewrite on_current_nil.
      change (foldl _ [?f] r) with (drawn t ([] ++ [f]) r).
      rewrite drawn_on_snoc. eexists. split; [reflexivity|].
      by rewrite plotted_labels.
Qed.

(** X12: for a list of names that are all in the table, starting with no
    open figure, the call shows one figure with one line per name, in the
    order of the list and with repetitions kept.  Its title is the prefix
    followed by every name with ", " after it, so it ends in ", "; for the
    empty list the figure has no line and the bare prefix as title. *)
Theorem chart_of_known_names t w names :
  df w = Some t → figures w = [] →
  Forall (λ c, c ∈ unique (Entity <$> t)) names →
  ∃ fig,
    plot_country_chart read_csv row_sum NaN (PyList (PyStr <$> names)) w
    = (Ok tt, set_displayed (displayed w ++ [fig]) w)
    ∧ label <$> lines fig = names
    ∧ title fig
      = Some (chart_title_prefix
                +:+ join "" ((λ s, s +:+ ", ") <$> names))
    ∧ xlabel fig = Some "Year" ∧ ylabel fig = Some "Total _output".
Proof.
  intros Hdf Hfig Hk. eexists. split.
  - enter_chart Hdf. rewrite forallb_is_str_strings.
    rewrite (plot_each_known t names w _ Hdf Hk).
    decorate_and_show. rewrite Hfig.
    change (set_ylabel _ ∘ _ ∘ _ ∘ _)
      with (chart_finish (float64:=float64)
              (foldl (λ title s, title +:+ s +:+ ", ")
                 chart_title_prefix names)).
    rewrite finished_chart. unfold modify.
    cbn [df filters figures displayed]. reflexivity.
  - cbn [lines title xlabel ylabel chart_finish set_ylabel set_xlabel
         set_suptitle set_title].
    split; [by rewrite plotted_labels|]. split; [|done].
    by rewrite list_title_joined.
Qed.

(** X13: for a single name passed as a string and found in the table,
    starting with no open figure, the call shows one line over the years
    of that country, titled with the prefix and the name (no ", ").  The
    totals come from [df_temp[:-1]]: every year but the last carries its
    row sum, and the last point of the line is NaN. *)
Theorem chart_of_one_country t w c :
  df w = Some t → figures w = [] → c ∈ unique (Entity <$> t) →
  ∃ fig l,
    plot_country_chart read_csv row_sum NaN (PyStr c) w = (Ok tt, set_displayed (displayed w ++ [fig]) w)
    ∧ lines fig = [l]
    ∧ title fig = Some (chart_title_prefix +:+ c)
    ∧ label l = c
    ∧ xdata l = Year <$> country_rows t c
    ∧ length (ydata l) = length (xdata l)
    ∧ last (ydata l) = Some NaN
    ∧ take (length (ydata l) - 1) (ydata l)
      = row_sum <$> take (length (ydata l) - 1) (country_rows t c).
Proof.
  intros Hdf Hfig Hc.
  assert (Hrows : country_rows t c ≠ []).
  { apply known_by_get_countries in Hc as (r & Hr & Hrc).
    intros Hnil. assert (Hin : r ∈ country_rows t c)
      by (by apply list_elem_of_filter).
    rewrite Hnil in Hin. by apply elem_of_nil in Hin. }
  eexists _, _. split.
  - enter_chart Hdf. rewrite (get_countries_loaded t w Hdf).
    rewrite decide_True by done. rewrite (country_plot_run t w c Hdf).
    decorate_and_show. rewrite Hfig, !on_current_nil.
    unfold modify. cbn [df filters figures displayed]. reflexivity.
  - split; [reflexivity|].
    cbn [lines title label xdata ydata compose plot_one set_legend add_line
         set_ylabel set_xlabel set_suptitle set_title new_figure app].
    fold (country_rows t c).
    split; [done|]. split; [done|]. split; [done|].
    rewrite Total_column_length, length_fmap.
    split; [done|]. split; [by apply Total_column_last|].
    apply Total_column_sums.
Qed.

(** X19: when the object has no table and [get_data] cannot obtain the
    file, [plot_country_chart] fails on a string or list argument with the
    AttributeError of [self.df.columns], before it looks at the names. *)
Theorem chart_without_data args w :
  df w = None → read_csv = None →
  is_list args = true ∨ is_str args = true →
  plot_country_chart read_csv row_sum NaN args w
  = (Raise (LibraryError "AttributeError"
              "'NoneType' object has no attribute 'columns'"), w).
Proof.
  intros Hdf Hcsv Hargs.
  unfold plot_country_chart, bind, ret, gets, self_df_columns.
  destruct args; destruct Hargs as [Ha|Ha]; try discriminate Ha;
    cbn [df]; rewrite Hdf, (get_data_unreachable w Hdf Hcsv);
    cbn [df]; by rewrite Hdf.
Qed.

(** ** Frame conditions of the other methods *)

Lemma only_figures_on_current (g : Figure float64 → Figure float64) w :
  ∃ fg ds, snd (plt_on_current g w) = set_figures fg (set_displayed ds w).
Proof. eexists _, (displayed w). by destruct w. Qed.

Lemma only_figures_plt_plot x (y : list float64) lbl w :
  ∃ fg ds, snd (plt_plot x y lbl w) = set_figures fg (set_displayed ds w).
Proof.
  unfold plt_plot. case_decide.
  - apply only_figures_on_current.
  - apply only_figures_raise.
Qed.

Lemma only_figures_columns w :
  ∃ fg ds,
    snd (self_df_columns (float64:=float64) w)
    = set_figures fg (set_displayed ds w).
Proof.
  exists (figures w), (displayed w). unfold self_df_columns.
  by destruct w as [[?|] ? ? ?].
Qed.

Ltac keeps_table_leaf lem :=
  apply (stable_figures keeps_table);
  [intros ?; apply lem | apply figures_keep_table].

Ltac keeps_table_steps :=
  repeat first
    [ refine (stable_bind keeps_table _ _ _ _); [ | intros ? ]
    | apply get_data_keeps_table
    | keeps_table_leaf (@only_figures_ret)
    | keeps_table_leaf (@only_figures_raise)
    | keeps_table_leaf (@only_figures_gets)
    | keeps_table_leaf only_figures_self_df
    | keeps_table_leaf only_figures_columns
    | keeps_table_leaf only_figures_on_current
    | keeps_table_leaf only_figures_plt_plot
    | keeps_table_leaf only_figures_show
    | match goal with
      | |- stable _ (match ?x with _ => _ end) => destruct x
      end
    | progress cbv zeta ].

Lemma get_countries_keeps_table :
  stable keeps_table (get_countries read_csv).
Proof. unfold get_countries. keeps_table_steps. Qed.

Lemma country_plot_keeps_table c :
  stable keeps_table (country_plot row_sum NaN c).
Proof. unfold country_plot. keeps_table_steps. Qed.

Lemma plot_each_keeps_table items title :
  stable keeps_table (plot_each read_csv row_sum NaN items title).
Proof.
  revert title. induction items as [|each r IH]; intros title;
    cbn [plot_each].
  - keeps_table_steps.
  - refine (stable_bind keeps_table _ _ _ _);
      [apply get_countries_keeps_table|intros known].
    destruct each; keeps_table_steps;
      try apply country_plot_keeps_table; apply IH.
Qed.

(** X14: [plot_country_chart] never changes a loaded table, whatever its
    argument and whether it returns or raises. *)
Theorem chart_keeps_table args w t :
  df w = Some t →
  df (snd (plot_country_chart read_csv row_sum NaN args w)) = Some t.
Proof.
  intros Hdf. revert t Hdf. change (keeps_table w (snd (chart args w))).
  revert w. change (stable keeps_table (chart args)).
  unfold plot_country_chart.
  refine (stable_bind keeps_table _ _ _ _); [keeps_table_steps|intros _].
  refine (stable_bind keeps_table _ _ _ _); [keeps_table_steps|intros d].
  refine (stable_bind keeps_table _ _ _ _); [keeps_table_steps|intros _].
  refine (stable_bind keeps_table _ _ _ _); [keeps_table_steps|intros _].
  refine (stable_bind keeps_table _ _ _ _); [|intros ?; keeps_table_steps].
  destruct args; keeps_table_steps;
    try apply get_countries_keeps_table;
    try apply country_plot_keeps_table;
    apply plot_each_keeps_table.
Qed.

(** ** The year checks of gapminder and choropleth *)

Lemma gapminder_checks_loaded t w n :
  df w = Some t →
  gapminder_checks read_csv (PyInt n) w
  = (if decide (n < 0) then Raise (TypeError msg_year_type)
     else if decide (n ∈ Year <$> t) then Ok n
     else Raise (ValueError (pretty n +:+ " is not present in the dataset")),
     w).
Proof.
  intros Hdf. unfold gapminder_checks, bind.
  destruct (decide (n < 0)); [done|].
  unfold ret, gets, self_df. rewrite Hdf. cbn [df]. rewrite Hdf.
  destruct (decide (n ∈ Year <$> t)) as [Hin|Hin].
  - by rewrite decide_True by (by apply elem_of_unique).
  - by rewrite decide_False by (by rewrite elem_of_unique).
Qed.

Lemma choropleth_checks_loaded t w geo n :
  df w = Some t →
  choropleth_checks read_csv geo (PyInt n) w
  = (if decide (n ∈ Year <$> t) then Ok n
     else Raise (ValueError msg_year_missing), w).
Proof.
  intros Hdf. unfold choropleth_checks, bind, ret, gets. rewrite Hdf.
  destruct geo; [rewrite (get_data_loaded w t Hdf)|];
    unfold self_df; rewrite Hdf;
    by destruct (decide (n ∈ Year <$> t)).
Qed.

(** X15: on a loaded table the year checks of [gapminder] and
    [choropleth] leave the table as it is ([gapminder], and [choropleth]
    on an object whose geographical table is loaded too, change nothing at
    all) and agree on the integers that are not negative: both pass
    exactly when some row has that year, and otherwise raise a ValueError
    ([gapminder] names the year in the message).  On a negative integer
    [gapminder] raises its TypeError, whereas [choropleth] still decides
    by membership. *)
Theorem year_checks_compared t w geo n :
  df w = Some t →
  snd (gapminder_checks read_csv (PyInt n) w) = w
  ∧ snd (choropleth_checks read_csv false (PyInt n) w) = w
  ∧ df (snd (choropleth_checks read_csv geo (PyInt n) w)) = Some t
  ∧ (fst (choropleth_checks read_csv geo (PyInt n) w) = Ok n
     ↔ n ∈ Year <$> t)
  ∧ (0 ≤ n →
     (fst (gapminder_checks read_csv (PyInt n) w) = Ok n ↔ n ∈ Year <$> t))
  ∧ (0 ≤ n → n ∉ Year <$> t →
     fst (gapminder_checks read_csv (PyInt n) w)
     = Raise (ValueError (pretty n +:+ " is not present in the dataset"))
     ∧ fst (choropleth_checks read_csv geo (PyInt n) w)
       = Raise (ValueError msg_year_missing))
  ∧ (n < 0 →
     fst (gapminder_checks read_csv (PyInt n) w)
     = Raise (TypeError msg_year_type)).
Proof.
  intros Hdf.
  rewrite (gapminder_checks_loaded t w n Hdf).
  rewrite (choropleth_checks_loaded t w false n Hdf).
  rewrite (choropleth_checks_loaded t w geo n Hdf). cbn [fst snd].
  split; [done|]. split; [done|]. split; [done|]. split.
  { destruct (decide (n ∈ Year <$> t)); [done|]. split; [done|done]. }
  split.
  { intros Hn. rewrite decide_False by lia.
    destruct (decide (n ∈ Year <$> t)); [done|]. split; [done|done]. }
  split.
  { intros Hn Hout. rewrite decide_False by lia.
    by rewrite !decide_False by done. }
  intros Hn. by rewrite decide_True by lia.
Qed.

End MoreProperties.

(** ** The further properties on the concrete tables *)

Lemma aggregated_regions_are_unknown_witness :
  predictor Demo.naive_forecast (Some DemoCharts.raw_csv)
    (PyList (PyStr <$> ["World"; "High income"])) DemoCharts.fresh
  = (Raise (UnknownCountries (loaded_table DemoCharts.raw_csv)),
     set_df (Some (loaded_table DemoCharts.raw_csv))
       (silenced DemoCharts.fresh)).
Proof.
  apply aggregated_regions_are_unknown; [reflexivity|reflexivity|].
  apply Forall_forall. decide_by_evaluation.
Defined.

Lemma predictor_without_data_witness :
  predictor Demo.naive_forecast None (PyList [PyStr "France"])
    DemoCharts.fresh
  = (Raise (TypeError "'NoneType' object is not subscriptable"),
     silenced DemoCharts.fresh).
Proof. apply predictor_without_data; reflexivity. Defined.

Lemma rejected_calls_draw_nothing_witness :
  (∃ e, fst (Demo.run (PyList (PyStr <$> ["Atlantis"; "France"; "Oz"; "Narnia"])))
        = Raise e)
  ∧ snd (Demo.run (PyList (PyStr <$> ["Atlantis"; "France"; "Oz"; "Narnia"])))
    = silenced Demo.world0.
Proof.
  apply (rejected_calls_draw_nothing Demo.naive_forecast None).
  right. exists Demo.table, ["Atlantis"; "France"; "Oz"; "Narnia"].
  split; [reflexivity|]. split; [reflexivity|]. right. simpl. lia.
Defined.

Lemma fit_exception_propagates_witness :
  let out :=
    predictor DemoCharts.selective_forecast None
      (PyList (PyStr <$> ["France"; "Monaco"; "Germany"]))
      DemoCharts.world_with_short_series in
  fst out = Raise (LibraryError "LinAlgError" "the fit failed")
  ∧ displayed (snd out) = displayed DemoCharts.world_with_short_series
  ∧ figures (snd out)
    = figures DemoCharts.world_with_short_series
      ++ [with_lines new_figure
            (result_lines DemoCharts.selective_forecast
               DemoCharts.table_with_short_series 0 ["France"]
               ++ [historical_line DemoCharts.table_with_short_series
                     "Monaco" (length ["France"])])
            (S (length ["France"]))].
Proof.
  apply (fit_exception_propagates DemoCharts.selective_forecast None
           DemoCharts.table_with_short_series
           DemoCharts.world_with_short_series
           ["France"; "Monaco"; "Germany"] ["France"] "Monaco" ["Germany"]).
  - reflexivity.
  - simpl. lia.
  - decide_by_evaluation.
  - vm_compute. reflexivity.
  - apply Forall_singleton. eexists. split; [vm_compute; reflexivity|].
    reflexivity.
  - vm_compute. reflexivity.
Defined.

Lemma forecast_shares_colour_of_history_witness :
  ∃ fig,
    last (displayed
            (snd (Demo.run (PyList (PyStr <$> ["Germany"; "Atlantis"; "France"])))))
    = Some fig
    ∧ ∀ i c,
        filter (λ s, s ∈ available_countries Demo.table)
          ["Germany"; "Atlantis"; "France"] !! i = Some c →
        ∃ hist fc,
          lines fig !! (2 * i)%nat = Some hist
          ∧ lines fig !! (2 * i + 1)%nat = Some fc
          ∧ label hist = c ∧ label fc = c +:+ " (forecast)"
          ∧ linestyle hist = "-" ∧ linestyle fc = "--"
          ∧ color hist = i ∧ color fc = i.
Proof.
  apply (forecast_shares_colour_of_history Demo.naive_forecast None
           Demo.table Demo.world0 ["Germany"; "Atlantis"; "France"]).
  - reflexivity.
  - simpl. lia.
  - exists "France". split; [|decide_by_evaluation].
    right. right. left.
  - decide_by_evaluation.
  - apply naive_forecast_ok_survivors.
Defined.

Lemma get_countries_distinct_entities_witness :
  ∃ cs,
    get_countries None Demo.world0 = (Ok cs, Demo.world0)
    ∧ NoDup cs
    ∧ (∀ c, c ∈ cs ↔ ∃ r, r ∈ Demo.table ∧ Entity r = c)
    ∧ cs `sublist_of` (Entity <$> Demo.table)
    ∧ head cs = head (Entity <$> Demo.table).
Proof.
  apply (get_countries_distinct_entities None Demo.table Demo.world0).
  reflexivity.
Defined.

Lemma unknown_message_lists_get_countries_witness :
  ∃ cs listed,
    fst (get_countries None Demo.world0) = Ok cs
    ∧ UnknownCountries Demo.table
      = ValueError (msg_no_valid_prefix +:+ join ", " listed)
    ∧ listed ≡ₚ cs.
Proof.
  apply (unknown_message_lists_get_countries None Demo.table Demo.world0).
  reflexivity.
Defined.

Lemma get_countries_on_fresh_object_witness :
  ∃ cs,
    get_countries (Some DemoCharts.raw_csv) DemoCharts.fresh
    = (Ok cs,
       set_df (Some (loaded_table DemoCharts.raw_csv)) DemoCharts.fresh)
    ∧ ("World" ∉ cs) ∧ ("France" ∈ cs).
Proof.
  destruct (get_countries_on_fresh_object (Some DemoCharts.raw_csv)
              DemoCharts.fresh) as [Hload _]; [reflexivity|].
  destruct (Hload DemoCharts.raw_csv) as (cs & Hrun & Hcs); [reflexivity|].
  exists cs. split; [exact Hrun|]. split.
  - intros Hin. apply Hcs in Hin as [Hno _]. apply Hno.
    decide_by_evaluation.
  - apply Hcs. split; [decide_by_evaluation|].
    exists {| Entity := "France"; Year := 1961; tfp := 1%Q |}.
    split; [|reflexivity].
    apply elem_of_app. right. apply elem_of_app. left.
    apply list_elem_of_fmap. exists 1961. split; [reflexivity|].
    apply elem_of_seqZ. lia.
Defined.

Lemma chart_type_errors_change_nothing_witness :
  DemoCharts.chart (PyTuple [PyStr "France"])
  = (Raise (TypeError msg_args_type), Demo.world0)
  ∧ DemoCharts.chart (PyList [PyStr "France"; PyInt 3])
    = (Raise (TypeError msg_pass_countries), Demo.world0).
Proof.
  split.
  - apply (chart_type_errors_change_nothing None DemoCharts.row_sum
             DemoCharts.NaN (PyTuple [PyStr "France"]) Demo.world0);
      reflexivity.
  - apply (proj2 (chart_type_errors_change_nothing None DemoCharts.row_sum
             DemoCharts.NaN (PyList [PyStr "France"; PyInt 3]) Demo.world0)
             Demo.table [PyStr "France"; PyInt 3]); reflexivity.
Defined.

Lemma chart_unknown_country_witness :
  DemoCharts.chart (PyStr "Atlantis")
  = (Raise (ValueError msg_country_unknown), Demo.world0)
  ∧ fst (DemoCharts.chart (PyList (PyStr <$> ["France"; "Atlantis"; "Germany"])))
    = Raise (TypeError msg_country_unknown)
  ∧ ∃ fig,
      figures (snd (DemoCharts.chart
                      (PyList (PyStr <$> ["France"; "Atlantis"; "Germany"]))))
      = [fig]
      ∧ label <$> lines fig = ["France"].
Proof.
  destruct (chart_unknown_country None DemoCharts.row_sum DemoCharts.NaN
              Demo.table Demo.world0) as [Hstr Hlist]; [reflexivity|].
  split; [apply Hstr; decide_by_evaluation|].
  destruct (Hlist ["France"] "Atlantis" ["Germany"]) as [Hrun Hfig].
  - apply Forall_singleton. decide_by_evaluation.
  - decide_by_evaluation.
  - cbn [app] in Hrun. unfold DemoCharts.chart. rewrite Hrun.
    split; [reflexivity|].
    destruct Hfig as (fig & Hdrawn & Hlabels); [reflexivity|done|].
    exists fig. split; [exact Hdrawn|exact Hlabels].
Defined.

Lemma chart_of_known_names_witness :
  ∃ fig,
    DemoCharts.chart (PyList (PyStr <$> ["Germany"; "France"; "Germany"]))
    = (Ok tt, set_displayed (displayed Demo.world0 ++ [fig]) Demo.world0)
    ∧ label <$> lines fig = ["Germany"; "France"; "Germany"]
    ∧ title fig
      = Some (chart_title_prefix
                +:+ join "" ((λ s, s +:+ ", ")
                               <$> ["Germany"; "France"; "Germany"]))
    ∧ xlabel fig = Some "Year" ∧ ylabel fig = Some "Total _output".
Proof.
  apply (chart_of_known_names None DemoCharts.row_sum DemoCharts.NaN
           Demo.table Demo.world0 ["Germany"; "France"; "Germany"]).
  - reflexivity.
  - reflexivity.
  - decide_by_evaluation.
Defined.

Lemma chart_of_one_country_witness :
  ∃ fig l,
    DemoCharts.chart (PyStr "France")
    = (Ok tt, set_displayed (displayed Demo.world0 ++ [fig]) Demo.world0)
    ∧ lines fig = [l]
    ∧ title fig = Some (chart_title_prefix +:+ "France")
    ∧ label l = "France"
    ∧ xdata l = Year <$> country_rows Demo.table "France"
    ∧ length (ydata l) = length (xdata l)
    ∧ last (ydata l) = Some DemoCharts.NaN
    ∧ take (length (ydata l) - 1) (ydata l)
      = DemoCharts.row_sum
          <$> take (length (ydata l) - 1) (country_rows Demo.table "France").
Proof.
  apply (chart_of_one_country None DemoCharts.row_sum DemoCharts.NaN
           Demo.table Demo.world0 "France").
  - reflexivity.
  - reflexivity.
  - decide_by_evaluation.
Defined.

Lemma chart_keeps_table_witness :
  df (snd (DemoCharts.chart (PyList (PyStr <$> ["France"; "Atlantis"]))))
  = Some Demo.table.
Proof.
  apply (chart_keeps_table None DemoCharts.row_sum DemoCharts.NaN).
  reflexivity.
Defined.

Lemma year_checks_compared_witness :
  fst (gapminder_checks None (PyInt (-5)) Demo.world0)
  = Raise (TypeError msg_year_type)
  ∧ fst (choropleth_checks None true (PyInt (-5)) Demo.world0)
    = Raise (ValueError msg_year_missing)
  ∧ fst (gapminder_checks None (PyInt 2019) Demo.world0) = Ok 2019.
Proof.
  destruct (year_checks_compared None Demo.table Demo.world0 true (-5))
    as (_ & _ & _ & Hc & _ & _ & Hneg); [reflexivity|].
  destruct (year_checks_compared None Demo.table Demo.world0 true 2019)
    as (_ & _ & _ & _ & Hg & _ & _); [reflexivity|].
  split; [apply Hneg; lia|]. split.
  - destruct (fst (choropleth_checks None true (PyInt (-5)) Demo.world0))
      eqn:E; [|by vm_compute in E].
    exfalso. vm_compute in E. discriminate E.
  - apply Hg; [lia|]. decide_by_evaluation.
Defined.

Lemma unhashable_element_raises_witness :
  ∃ msg,
    Demo.run (PyList [PyStr "France"; PyList [PyStr "Germany"]])
    = (Raise (TypeError msg), silenced Demo.world0)
    ∧ TypeError msg ≠ InvalidArgument.
Proof.
  apply (unhashable_element_raises Demo.naive_forecast None Demo.table).
  - reflexivity.
  - apply Exists_cons_tl, Exists_cons_hd. discriminate.
Defined.

Lemma unknown_names_are_ignored_witness :
  Demo.run (PyList (PyStr <$> ["Atlantis"; "France"; "Oz"]))
  = Demo.run
      (PyList (PyStr <$> filter (λ s, s ∈ available_countries Demo.table)
                           ["Atlantis"; "France"; "Oz"])).
Proof.
  apply (unknown_names_are_ignored Demo.naive_forecast None Demo.table).
  - reflexivity.
  - simpl. lia.
Defined.

Lemma get_data_loads_once_witness :
  (∃ t, df (snd (get_data (Some Demo.table) DemoCharts.fresh)) = Some t)
  ∧ get_data (Some DemoCharts.raw_csv)
      (snd (get_data (Some Demo.table) DemoCharts.fresh))
    = (Ok tt, snd (get_data (Some Demo.table) DemoCharts.fresh)).
Proof.
  apply (get_data_loads_once (Some Demo.table) (Some DemoCharts.raw_csv)
           DemoCharts.fresh Demo.table).
  reflexivity.
Defined.

Lemma chart_without_data_witness :
  plot_country_chart None DemoCharts.row_sum DemoCharts.NaN
    (PyStr "France") DemoCharts.fresh
  = (Raise (LibraryError "AttributeError"
              "'NoneType' object has no attribute 'columns'"),
     DemoCharts.fresh).
Proof.
  apply chart_without_data; [reflexivity|reflexivity|].
  right. reflexivity.
Defined.
